(** * BoboAgent: decision core of a bilateral negotiation agent

    Shallow embedding of the two agents of the repository,

      - [Bobo]        : agents/bobo_agent/bobo_agent.py (boolean flags),
      - [BoboDynamic] : agents/bobo_agent_dynamic_flags/bobo_agent.py
                        (continuous weights),

    and the properties of their classifier, acceptance policy, scoring
    function, bid search and persistence.

    Numbers.  Utilities, progress and scores are Python floats (and the
    Decimal values the utility space hands out).  They are modelled as exact
    rationals [Q]; every comparison the source performs is a boolean
    comparison on [Q] here.  Rounding is therefore outside the model.

    Reads of the clock.  Each method of the source reads
    [self.progress.get(time() * 1000)] once when it starts; the value read is
    an argument [progress] of the embedded method.  [find_bid] calls
    [score_bid] for every candidate, so it receives the whole sequence of
    values its reads return.

    Random draws.  [randint(0, all_bids.size() - 1)] is a draw from a
    sequence [rand : nat -> nat] supplied by the caller. *)

From Stdlib Require Import QArith Qabs Qminmax Lqa Lia.
From Stdlib Require Import List String Ascii Bool Arith.
Import ListNotations.

Open Scope Q_scope.

(** ** Boolean comparisons on rationals *)

Definition Qltb (x y : Q) : bool := negb (Qle_bool y x).

Infix "<?" := Qltb (at level 70, no associativity) : Q_scope.
Infix "<=?" := Qle_bool (at level 70, no associativity) : Q_scope.
Notation "x >? y" := (Qltb y x) (at level 70, no associativity) : Q_scope.
Notation "x >=? y" := (Qle_bool y x) (at level 70, no associativity) : Q_scope.

(** ** Python helpers *)

(** [sum(l)]: left-to-right from 0. *)
Definition py_sum (l : list Q) : Q := fold_left Qplus l 0.

(** [l[-n:]] for a positive [n]: the last [n] elements, the whole list when
    it is shorter. *)
Definition last_n {A : Type} (n : nat) (l : list A) : list A :=
  skipn (List.length l - n) l.

(** [len(l)] as a number. *)
Definition py_len {A : Type} (l : list A) : Q := inject_Z (Z.of_nat (List.length l)).

(** The average [sum(recent) / len(recent)] over the window
    [recent = utils[-5:]] of the classifier. *)
Definition window_average (utils : list Q) : Q :=
  py_sum (last_n 5 utils) / py_len (last_n 5 utils).

(** [min(1.0, max(0.0, x))]. *)
Definition clamp01 (x : Q) : Q := Qmin 1 (Qmax 0 x).

(** ** The runtime the agent is plugged into

    The negotiation runtime (geniusweb) and the opponent model of
    [utils/opponent_model.py] are not part of the embedded sources; the agent
    only uses the operations below. *)

Definition PartyId := string.

Class Runtime : Type := {
  (** a complete assignment of values to the issues of the domain *)
  Bid : Type;
  (** [self.profile.getUtility(bid)] *)
  getUtility : Bid -> Q;
  (** [AllBidsList(domain).get(i)] *)
  all_bids_get : nat -> Bid;
  (** the frequency model of the opponent *)
  OpponentModel : Type;
  (** [OpponentModel(self.domain)] *)
  new_model : OpponentModel;
  (** [model.update(bid)], which mutates the model in place *)
  update : OpponentModel -> Bid -> OpponentModel;
  (** [model.get_predicted_utility(bid)] *)
  get_predicted_utility : OpponentModel -> Bid -> Q
}.

(** Actions travelling on the connection.  [self.me] is [None] until the
    settings arrive and [self.last_received_bid] is [None] until the first
    offer, so both components are optional in what the agent builds. *)
Inductive Action `{Runtime} : Type :=
| Offer (actor : option PartyId) (bid : Bid)
| Accept (actor : option PartyId) (bid : option Bid).

(** Messages of the runtime handled by [notifyChange]. *)
Inductive Inform `{Runtime} : Type :=
| Settings (id : PartyId)
| ActionDone (action : Action)
| YourTurn
| Finished
| OtherInform.

(** The concession exponent of [score_bid]: [1 / eps] at the default
    [eps = 0.1]; [score_bid] is only ever called with its defaults. *)
Definition time_pressure (progress : Q) : Q := 1 - progress ^ 10.

(** ** Strings of the persistent store *)

Open Scope string_scope.

Definition is_char (c d : ascii) : bool := Ascii.eqb c d.

Definition LF : ascii := ascii_of_nat 10.
Definition CR : ascii := ascii_of_nat 13.

(** [str.isspace] on one character (code points below 256). *)
Definition is_space (c : ascii) : bool :=
  let n := nat_of_ascii c in
  ((9 <=? n) && (n <=? 13) || (28 <=? n) && (n <=? 32)
   || (n =? 133) || (n =? 160))%nat.

Fixpoint lstrip (s : string) : string :=
  match s with
  | EmptyString => EmptyString
  | String c r => if is_space c then lstrip r else s
  end.

Fixpoint rstrip (s : string) : string :=
  match s with
  | EmptyString => EmptyString
  | String c r =>
      match rstrip r with
      | EmptyString => if is_space c then EmptyString else String c EmptyString
      | r' => String c r'
      end
  end.

(** [s.strip()] *)
Definition strip (s : string) : string := lstrip (rstrip s).

(** [s.split(sep)] for a one-character separator: never the empty list. *)
Fixpoint split (sep : ascii) (s : string) : list string :=
  match s with
  | EmptyString => [EmptyString]
  | String c r =>
      if is_char c sep then EmptyString :: split sep r
      else match split sep r with
           | [] => [String c EmptyString]
           | p :: ps => String c p :: ps
           end
  end.

Fixpoint contains (c : ascii) (s : string) : bool :=
  match s with
  | EmptyString => false
  | String d r => is_char d c || contains c r
  end.

(** [s.rsplit(sep, 1)[0]]: what precedes the last separator, the whole
    string when there is none. *)
Fixpoint rsplit_head (sep : ascii) (s : string) : string :=
  match s with
  | EmptyString => EmptyString
  | String c r =>
      if is_char c sep && negb (contains sep r) then EmptyString
      else String c (rsplit_head sep r)
  end.

(** [c] in front of the first of the lines [ls]. *)
Definition push_char (c : ascii) (ls : list string) : list string :=
  match ls with
  | [] => [String c EmptyString]
  | l :: ls' => String c l :: ls'
  end.

(** Iterating over a file opened in text mode: the lines with their
    terminator, where ["\n"], ["\r"] and ["\r\n"] all end a line and are
    read as ["\n"] (universal newlines).  [after_cr] tells that the
    character before was a ["\r"], whose line is already closed. *)
Fixpoint readlines_from (after_cr : bool) (s : string) : list string :=
  match s with
  | EmptyString => []
  | String c r =>
      if is_char c LF then
        if after_cr then readlines_from false r
        else String LF EmptyString :: readlines_from false r
      else if is_char c CR then String LF EmptyString :: readlines_from true r
      else push_char c (readlines_from false r)
  end.

Definition readlines (s : string) : list string := readlines_from false s.

(** The text is empty or ends with ["\n"]: what is appended starts a line
    of its own. *)
Fixpoint line_complete (s : string) : bool :=
  match s with
  | EmptyString => true
  | String c r =>
      match r with
      | EmptyString => is_char c LF
      | String _ _ => line_complete r
      end
  end.

Definition starts_with_space (s : string) : bool :=
  match s with
  | EmptyString => false
  | String c _ => is_space c
  end.

(** A name that survives being written in a record and read back: no comma,
    no line break, no white space in front. *)
Definition clean_name (name : string) : bool :=
  negb (contains "," name) && negb (contains LF name)
  && negb (contains CR name) && negb (starts_with_space name).

(** [str(b)] for a Python bool, as an f-string prints it. *)
Definition str_of_bool (b : bool) : string := if b then "True" else "False".

Definition comma : ascii := ",".
Definition underscore : ascii := "_".

(** [a == b] where [b] may be [None]. *)
Definition eq_opt_string (a : string) (b : option string) : bool :=
  match b with
  | Some b' => String.eqb a b'
  | None => false
  end.

(** [a == b] on party identities either of which may be [None]. *)
Definition eq_opt_party (a b : option string) : bool :=
  match a, b with
  | Some a', Some b' => String.eqb a' b'
  | None, None => true
  | _, _ => false
  end.

(** [str(actor)] *)
Definition str_party (a : option string) : string :=
  match a with
  | Some name => name
  | None => "None"
  end.

(** The file [data.md] of the storage directory: [None] while it does not
    exist, its content otherwise. *)
Definition Store := option string.

Close Scope string_scope.

(** * The boolean-flag agent: agents/bobo_agent/bobo_agent.py *)

Module Bobo.
Section Agent.
Context `{RT : Runtime}.

(** The instance fields the methods read and write.  [profile], [progress]
    and [domain] are read-only and come with the runtime. *)
Record agent : Type := mkAgent {
  me : option PartyId;
  other : option string;
  opponent_utils : list Q;
  opponent_is_greedy : bool;
  opponent_is_nice : bool;
  last_received_bid : option Bid;
  opponent_model : option OpponentModel
}.

(** [__init__] *)
Definition init : agent :=
  {| me := None; other := None; opponent_utils := [];
     opponent_is_greedy := false; opponent_is_nice := false;
     last_received_bid := None; opponent_model := None |}.

Definition set_other (a : agent) (o : option string) : agent :=
  mkAgent (me a) o (opponent_utils a) (opponent_is_greedy a)
          (opponent_is_nice a) (last_received_bid a) (opponent_model a).

Definition set_me (a : agent) (i : option PartyId) : agent :=
  mkAgent i (other a) (opponent_utils a) (opponent_is_greedy a)
          (opponent_is_nice a) (last_received_bid a) (opponent_model a).

Definition set_flags (a : agent) (greedy nice : bool) : agent :=
  mkAgent (me a) (other a) (opponent_utils a) greedy nice
          (last_received_bid a) (opponent_model a).

(** The body of the loop of [load_opponent_data] over the lines still to
    read; the first matching record wins ([break]). *)
Fixpoint load_lines (a : agent) (lines : list string) : agent :=
  match lines with
  | [] => a
  | line :: rest =>
      let parts := split comma (strip line) in
      if (List.length parts =? 3)%nat
         && eq_opt_string (nth 0 parts EmptyString) (other a)
      then set_flags a (String.eqb (nth 1 parts EmptyString) "True")
                       (String.eqb (nth 2 parts EmptyString) "True")
      else load_lines a rest
  end.

Definition load_opponent_data (a : agent) (store : Store) : agent :=
  match store with
  | None => a
  | Some content => load_lines a (readlines content)
  end.

(** The test of the loop of [load_opponent_data] on one line, for an
    opponent called [name]. *)
Definition record_matches (name : string) (line : string) : bool :=
  let parts := split comma (strip line) in
  (List.length parts =? 3)%nat && String.eqb (nth 0 parts EmptyString) name.

(** The store holds a record for [name]. *)
Definition has_record (name : string) (store : Store) : bool :=
  match store with
  | None => false
  | Some content => existsb (record_matches name) (readlines content)
  end.

(** The store can be appended to without gluing the new record to an
    unfinished last line. *)
Definition appendable (store : Store) : bool :=
  match store with
  | None => true
  | Some content => line_complete content
  end.

(** The record [save_data] appends. *)
Definition record_line (name : string) (greedy nice : bool) : string :=
  (name ++ "," ++ str_of_bool greedy ++ "," ++ str_of_bool nice
        ++ String LF EmptyString)%string.

(** [save_data]: nothing without an opponent; otherwise the record goes to
    the end of the file, which is created when it is missing. *)
Definition save_data (a : agent) (store : Store) : Store :=
  match other a with
  | None => store
  | Some name =>
      let opponent_data :=
        record_line name (opponent_is_greedy a) (opponent_is_nice a) in
      match store with
      | None => Some opponent_data
      | Some content => Some (content ++ opponent_data)%string
      end
  end.

(** [opponent_action] *)
Definition opponent_action (a : agent) (action : Action) : agent :=
  match action with
  | Offer _ bid =>
      let model :=
        match opponent_model a with
        | None => new_model
        | Some m => m
        end in
      let model := update model bid in
      let util := get_predicted_utility model bid in
      let utils := opponent_utils a ++ [util] in
      let greedy := opponent_is_greedy a in
      let nice := opponent_is_nice a in
      if (3 <=? List.length utils)%nat then
        let recent := last_n 5 utils in
        let avg_util := py_sum recent / py_len recent in
        let greedy := if avg_util >? 0.87 then true else greedy in
        let nice :=
          if (0.6 <? avg_util) && (avg_util <? 0.9) then true else nice in
        mkAgent (me a) (other a) utils greedy nice (Some bid) (Some model)
      else
        mkAgent (me a) (other a) utils greedy nice (Some bid) (Some model)
  | Accept _ _ => a
  end.

(** [accept_condition] *)
Definition accept_condition (a : agent) (progress : Q) (bid : option Bid)
  : bool :=
  match bid with
  | None => false
  | Some bid =>
      let offered_util := getUtility bid in
      if offered_util >=? 0.9 then true
      else if opponent_is_greedy a && (offered_util >? 0.65) then true
      else
        let last_resort :=
          if progress >? 0.98 then offered_util >? 0.70
          else if progress >? 0.97 then offered_util >? 0.75
          else if progress >? 0.96 then offered_util >? 0.8
          else if progress >? 0.95 then offered_util >? 0.85
          else false in
        match opponent_model a with
        | None => last_resort
        | Some model =>
            let opponent_util := get_predicted_utility model bid in
            if opponent_is_greedy a then
              if (progress >? 0.99) && (offered_util >? 0.6) then true
              else if (progress >? 0.97) && (offered_util >? 0.7) then true
              else false
            else if opponent_is_nice a && (progress >? 0.95)
                    && ((offered_util >? 0.75) && (opponent_util >? 0.7))
            then true
            else if (progress >? 0.6) && (offered_util >? 0.6)
                    && (opponent_util <? 0.5)
            then true
            else if (progress >? 0.97) && (offered_util >? 0.85)
                    && (opponent_util <? 0.6)
            then true
            else if negb (opponent_is_greedy a)
                    && (offered_util * opponent_util >? 0.75)
            then true
            else if (progress >? 0.95) && (opponent_util >? 0.9)
                    && (offered_util <? 0.7)
            then false
            else if (progress >? 0.93) && (offered_util >? 0.65)
                    && (opponent_util <? 0.5)
            then true
            else last_resort
        end
  end.

(** [score_bid] at its default arguments [alpha = 0.95], [eps = 0.1].  The
    assignment [opponent_utility = 0.5] of the greedy case is never read:
    that case returns the own utility before the opponent term is used. *)
Definition score_bid (a : agent) (progress : Q) (bid : Bid) : Q :=
  match opponent_model a with
  | None =>
      let our_utility := getUtility bid in
      0.95 * time_pressure progress * our_utility
  | Some model =>
      let opponent_utility := get_predicted_utility model bid in
      if negb (opponent_is_greedy a)
         && (opponent_utility <? 0.1 - 0.08 * progress)
      then 0
      else
        let alpha :=
          if opponent_is_nice a then 0.7
          else if opponent_is_greedy a then 0.95
          else 0.95 - 0.45 * progress in
        if opponent_is_greedy a then getUtility bid
        else
          let our_utility := getUtility bid in
          let score := alpha * time_pressure progress * our_utility in
          let opponent_utility := get_predicted_utility model bid in
          let opponent_score :=
            (1 - alpha * time_pressure progress) * opponent_utility in
          score + opponent_score
  end.

(** The minimum own utility a candidate of [find_bid] must reach. *)
Definition min_util (progress : Q) : Q := 0.85 * (1 - 0.25 * progress).

(** One turn of the sampling loop of [find_bid]: [best] is the pair
    [(best_bid_score, best_bid)], [k] the number of the turn; the turn
    draws [rand k] and, for a candidate at or above the floor, scores it at
    the progress [clock k] read by that call of [score_bid]. *)
Definition find_bid_step (a : agent) (floor : Q) (rand : nat -> nat)
    (clock : nat -> Q) (best : Q * option Bid) (k : nat) : Q * option Bid :=
  let bid := all_bids_get (rand k) in
  if getUtility bid <? floor then best
  else
    let bid_score := score_bid a (clock k) bid in
    if bid_score >? fst best then (bid_score, Some bid) else best.

Definition find_bid_loop (a : agent) (floor : Q) (rand : nat -> nat)
    (clock : nat -> Q) (turns : list nat) : Q * option Bid :=
  fold_left (find_bid_step a floor rand clock) turns (0, None).

(** [find_bid]: [progress] is the value read at the start, [clock k] the
    one read while scoring candidate [k], [rand 0 .. rand 499] the draws of
    the loop and [rand 500] the draw of the fallback. *)
Definition find_bid (a : agent) (progress : Q) (clock : nat -> Q)
    (rand : nat -> nat) : Bid :=
  match snd (find_bid_loop a (min_util progress) rand clock (seq 0 500)%nat) with
  | Some best_bid => best_bid
  | None => all_bids_get (rand 500%nat)
  end.

(** [my_turn]: the action sent.  [progress] is read by [accept_condition],
    [progress'] by [find_bid]. *)
Definition my_turn (a : agent) (progress progress' : Q) (clock : nat -> Q)
    (rand : nat -> nat) : Action :=
  if accept_condition a progress (last_received_bid a)
  then Accept (me a) (last_received_bid a)
  else Offer (me a) (find_bid a progress' clock rand).

(** [notifyChange]: the new fields, the new store and the action sent, if
    any.  The clock and the draws are only used on [YourTurn]. *)
Definition notifyChange (a : agent) (store : Store) (data : Inform)
    (progress progress' : Q) (clock : nat -> Q) (rand : nat -> nat)
  : agent * Store * option Action :=
  match data with
  | Settings id =>
      (load_opponent_data (set_me a (Some id)) store, store, None)
  | ActionDone action =>
      let actor :=
        match action with Offer actor _ | Accept actor _ => actor end in
      if eq_opt_party actor (me a) then (a, store, None)
      else
        let a := set_other a (Some (rsplit_head underscore (str_party actor))) in
        (opponent_action a action, store, None)
  | YourTurn => (a, store, Some (my_turn a progress progress' clock rand))
  | Finished => (a, save_data a store, None)
  | OtherInform => (a, store, None)
  end.

(** The opponent's actions of a session, handled one after the other. *)
Definition run (a : agent) (actions : list Action) : agent :=
  fold_left opponent_action actions a.

(** One message handled, the action sent dropped. *)
Definition handle (progress : Q) (clock : nat -> Q) (rand : nat -> nat)
    (st : agent * Store) (data : Inform) : agent * Store :=
  fst (notifyChange (fst st) (snd st) data progress progress clock rand).

(** A session: a new agent handles the messages in turn, starting from the
    given store. *)
Definition session (progress : Q) (clock : nat -> Q) (rand : nat -> nat)
    (store : Store) (messages : list Inform) : agent * Store :=
  fold_left (handle progress clock rand) messages (init, store).

End Agent.
End Bobo.

(** * The continuous-weight agent:
      agents/bobo_agent_dynamic_flags/bobo_agent.py *)

Module BoboDynamic.
Section Agent.
Context `{RT : Runtime}.

Record agent : Type := mkAgent {
  me : option PartyId;
  other : option string;
  last_received_bid : option Bid;
  opponent_model : option OpponentModel;
  opponent_utils : list Q;
  greedy_weight : Q;
  nice_weight : Q
}.

(** [__init__] *)
Definition init : agent :=
  {| me := None; other := None; last_received_bid := None;
     opponent_model := None; opponent_utils := [];
     greedy_weight := 0; nice_weight := 0 |}.

Definition set_other (a : agent) (o : option string) : agent :=
  mkAgent (me a) o (last_received_bid a) (opponent_model a)
          (opponent_utils a) (greedy_weight a) (nice_weight a).

Definition set_me (a : agent) (i : option PartyId) : agent :=
  mkAgent i (other a) (last_received_bid a) (opponent_model a)
          (opponent_utils a) (greedy_weight a) (nice_weight a).

(** The two formulas of the classifier, on the average of the window. *)
Definition greedy_of (avg_util progress : Q) : Q :=
  clamp01 (Qabs (avg_util - 0.5) * 2 - 0.15 * progress).

Definition nice_of (avg_util progress : Q) : Q :=
  clamp01 (1.3 - avg_util - 0.15 * progress).

(** [opponent_action]; [progress] is read only once three offers are in. *)
Definition opponent_action (a : agent) (progress : Q) (action : Action)
  : agent :=
  match action with
  | Offer _ bid =>
      let model :=
        match opponent_model a with
        | None => new_model
        | Some m => m
        end in
      let model := update model bid in
      let util := get_predicted_utility model bid in
      let utils := opponent_utils a ++ [util] in
      if (3 <=? List.length utils)%nat then
        let recent := last_n 5 utils in
        let avg_util := py_sum recent / py_len recent in
        mkAgent (me a) (other a) (Some bid) (Some model) utils
                (greedy_of avg_util progress) (nice_of avg_util progress)
      else
        mkAgent (me a) (other a) (Some bid) (Some model) utils
                (greedy_weight a) (nice_weight a)
  | Accept _ _ => a
  end.

(** [save_data]: the file is overwritten with a fixed text. *)
Definition save_data (a : agent) (store : Store) : Store :=
  Some "Learning data (see README.md)"%string.

(** [accept_condition] *)
Definition accept_condition (a : agent) (progress : Q) (bid : option Bid)
  : bool :=
  match bid with
  | None => false
  | Some bid =>
      let offered_util := getUtility bid in
      if offered_util >=? 0.85 then true
      else if (greedy_weight a <? 0.5) && (progress >? 0.9)
              && (offered_util >? 0.7)
      then true
      else
        let threshold :=
          if progress >? 0.98 then 0.75
          else if progress >? 0.95 then 0.8
          else 0.85 in
        match opponent_model a with
        | None => offered_util >? threshold
        | Some model =>
            let opponent_util := get_predicted_utility model bid in
            if (progress >? 0.95) && (offered_util >? 0.75)
               && (opponent_util >? 0.6)
            then true
            else if (progress >? 0.99) && (offered_util >? 0.7)
                    && (opponent_util <? 0.5)
            then true
            else offered_util >? threshold
        end
  end.

(** The trade-off weight of [score_bid]. *)
Definition alpha_of (a : agent) (progress : Q) : Q :=
  Qmax 0.6 (0.95 - 0.3 * progress * (1 - nice_weight a)).

(** [score_bid] *)
Definition score_bid (a : agent) (progress : Q) (bid : Bid) : Q :=
  let our_utility := getUtility bid in
  let opponent_utility :=
    match opponent_model a with
    | Some model => get_predicted_utility model bid
    | None => 0
    end in
  let alpha := alpha_of a progress in
  alpha * our_utility
  + (1 - alpha) * opponent_utility * (1 - greedy_weight a).

Definition min_util (progress : Q) : Q := 0.85 * (1 - 0.15 * progress).

(** One turn of the sampling loop of [find_bid], as in the boolean agent. *)
Definition find_bid_step (a : agent) (floor : Q) (rand : nat -> nat)
    (clock : nat -> Q) (best : Q * option Bid) (k : nat) : Q * option Bid :=
  let bid := all_bids_get (rand k) in
  if getUtility bid <? floor then best
  else
    let bid_score := score_bid a (clock k) bid in
    if bid_score >? fst best then (bid_score, Some bid) else best.

Definition find_bid_loop (a : agent) (floor : Q) (rand : nat -> nat)
    (clock : nat -> Q) (turns : list nat) : Q * option Bid :=
  fold_left (find_bid_step a floor rand clock) turns (0, None).

(** [find_bid].  [best_bid or ...] takes the fallback exactly when
    [best_bid] is [None]: a bid object is never falsy. *)
Definition find_bid (a : agent) (progress : Q) (clock : nat -> Q)
    (rand : nat -> nat) : Bid :=
  match snd (find_bid_loop a (min_util progress) rand clock (seq 0 500)%nat)
  with
  | Some best_bid => best_bid
  | None => all_bids_get (rand 500%nat)
  end.

(** [my_turn] *)
Definition my_turn (a : agent) (progress progress' : Q) (clock : nat -> Q)
    (rand : nat -> nat) : Action :=
  if accept_condition a progress (last_received_bid a)
  then Accept (me a) (last_received_bid a)
  else Offer (me a) (find_bid a progress' clock rand).

(** [notifyChange]: the settings load nothing here. *)
Definition notifyChange (a : agent) (store : Store) (data : Inform)
    (progress progress' : Q) (clock : nat -> Q) (rand : nat -> nat)
  : agent * Store * option Action :=
  match data with
  | Settings id => (set_me a (Some id), store, None)
  | ActionDone action =>
      let actor :=
        match action with Offer actor _ | Accept actor _ => actor end in
      if eq_opt_party actor (me a) then (a, store, None)
      else
        let a := set_other a (Some (rsplit_head underscore (str_party actor))) in
        (opponent_action a progress action, store, None)
  | YourTurn => (a, store, Some (my_turn a progress progress' clock rand))
  | Finished => (a, save_data a store, None)
  | OtherInform => (a, store, None)
  end.

(** The opponent's actions of a session, each with the progress at which
    it is handled. *)
Definition run (a : agent) (steps : list (Q * Action)) : agent :=
  fold_left (fun a s => opponent_action a (fst s) (snd s)) steps a.

(** One message handled, the action sent dropped. *)
Definition handle (progress : Q) (clock : nat -> Q) (rand : nat -> nat)
    (st : agent * Store) (data : Inform) : agent * Store :=
  fst (notifyChange (fst st) (snd st) data progress progress clock rand).

(** A session: a new agent handles the messages in turn, starting from the
    given store. *)
Definition session (progress : Q) (clock : nat -> Q) (rand : nat -> nat)
    (store : Store) (messages : list Inform) : agent * Store :=
  fold_left (handle progress clock rand) messages (init, store).

End Agent.
End BoboDynamic.

(** * The sampling loop, once for both agents

    The loops of the two [find_bid] differ only in the [score_bid] they
    call; [score k bid] stands for the score of the candidate of turn [k],
    computed at the progress read during that turn. *)




(** * Kinds of messages *)

Definition is_settings `{Runtime} (data : Inform) : bool :=
  match data with
  | Settings _ => true
  | _ => false
  end.

Definition is_finished `{Runtime} (data : Inform) : bool :=
  match data with
  | Finished => true
  | _ => false
  end.

(** The party an action comes from. *)
Definition actor_of `{Runtime} (action : Action) : option PartyId :=
  match action with
  | Offer actor _ => actor
  | Accept actor _ => actor
  end.

(** * A small runtime to run the agents on

    Five bids, named by their index; the utility oracle and the predicted
    utilities are given by tables.  The stand-in for the opponent model
    answers from its table whatever it has been updated with. *)

Module Fixture.

Definition utility_table (b : nat) : Q :=
  nth b [0.68; 0.62; 0.9; 0.1; 0.9] 0.

Definition predicted_table (b : nat) : Q :=
  nth b [0.95; 0.95; 0; 1; 1] 0.

Definition table_runtime : Runtime := {|
  Bid := nat;
  getUtility := utility_table;
  all_bids_get := fun i => i;
  OpponentModel := unit;
  new_model := tt;
  update := fun m _ => m;
  get_predicted_utility := fun _ b => predicted_table b
|}.

#[local] Existing Instance table_runtime.

(** Offers of the opponent for the given bids. *)
Definition offers (bids : list nat) : list Action :=
  map (Offer (Some "opponent_1"%string)) bids.

(** The same offers, all handled at the given progress. *)
Definition offers_at (progress : Q) (bids : list nat) : list (Q * Action) :=
  map (fun a => (progress, a)) (offers bids).

(** The agents after the opponent has offered the given bids. *)
Definition after_offers (bids : list nat) : Bobo.agent :=
  Bobo.run Bobo.init (offers bids).

Definition dynamic_after_offers (progress : Q) (bids : list nat)
  : BoboDynamic.agent :=
  BoboDynamic.run BoboDynamic.init (offers_at progress bids).

(** The boolean-flag agent after five offers predicted at 0.95. *)
Definition greedy_state : Bobo.agent := after_offers [0; 0; 0; 0; 0]%nat.

(** The boolean-flag agent after one offer: a model, no flag raised. *)
Definition neutral_state : Bobo.agent := after_offers [3]%nat.

(** The continuous-weight agent after the same five offers, handled at
    progress 0: the greedy weight is 0.9. *)
Definition dynamic_greedy_state : BoboDynamic.agent :=
  dynamic_after_offers 0 [0; 0; 0; 0; 0]%nat.


(** The party the offers come from. *)
Definition opponent : option PartyId := Some "opponent_1"%string.

(** A session against the opponent "X": three offers predicted at 0.95,
    then the end of the negotiation. *)
Definition session_against_X : list Inform :=
  [Settings "me_2"%string;
   ActionDone (Offer (Some "X_1"%string) 0%nat);
   ActionDone (Offer (Some "X_1"%string) 0%nat);
   ActionDone (Offer (Some "X_1"%string) 0%nat);
   Finished].

(** The start of the next session, up to the first offer of "X". *)
Definition next_session_start : list Inform :=
  [Settings "me_2"%string].

Definition next_session_first_offer : list Inform :=
  [Settings "me_2"%string; ActionDone (Offer (Some "X_1"%string) 3%nat)].

(** An agent that knows its opponent "X" and holds it for greedy and
    nice. *)
Definition knows_X : Bobo.agent :=
  Bobo.set_flags (Bobo.set_other Bobo.init (Some "X"%string)) true true.

(** A store with an older record for "X". *)
Definition older_record : Store :=
  Some (Bobo.record_line "X"%string false false).

(** Draws that sample bid 2 in every turn of the loop and bid 3 for the
    fallback. *)
Definition stubborn_draws (k : nat) : nat :=
  if (k <? 500)%nat then 2%nat else 3%nat.

(** A clock that stands still. *)
Definition still_clock (progress : Q) (k : nat) : Q := progress.

(** What follows the settings in a session against "X" in which the agent
    gets one turn. *)
Definition after_settings : list Inform :=
  [ActionDone (Offer (Some "X_1"%string) 0%nat); YourTurn; Finished].

(** An offer of the party "X_1". *)
Definition offer_of_X : Action := Offer (Some "X_1"%string) 0%nat.

(** An agent that has just learnt the name of its opponent "X", and one
    that ends a session holding "X" for neither greedy nor nice. *)
Definition meets_X : Bobo.agent :=
  Bobo.set_other Bobo.init (Some "X"%string).

Definition forgets_X : Bobo.agent := Bobo.set_flags meets_X false false.

(** A store with a record for another opponent, "Y". *)
Definition record_of_Y : Store :=
  Some (Bobo.record_line "Y"%string true false).

End Fixture.

(** * Reflection of the comparisons *)

Lemma Qltb_true (x y : Q) : (x <? y) = true <-> x < y.
Proof.
  unfold Qltb. rewrite negb_true_iff, <- not_true_iff_false, Qle_bool_iff.
  split; [apply Qnot_le_lt | apply Qlt_not_le].
Qed.

Lemma Qltb_false (x y : Q) : (x <? y) = false <-> y <= x.
Proof.
  unfold Qltb. rewrite negb_false_iff. apply Qle_bool_iff.
Qed.

Lemma Qleb_true (x y : Q) : (x <=? y) = true <-> x <= y.
Proof. apply Qle_bool_iff. Qed.

Lemma Qleb_false (x y : Q) : (x <=? y) = false <-> y < x.
Proof.
  rewrite <- not_true_iff_false, Qle_bool_iff.
  split; [apply Qnot_le_lt | apply Qlt_not_le].
Qed.

(** Turn every boolean comparison of the context and the goal into the
    order fact it decides. *)
Ltac qreflect :=
  repeat match goal with
  | H : (_ <? _) = true |- _ => apply Qltb_true in H
  | H : (_ <? _) = false |- _ => apply Qltb_false in H
  | H : (_ <=? _) = true |- _ => apply Qleb_true in H
  | H : (_ <=? _) = false |- _ => apply Qleb_false in H
  | |- (_ <? _) = true => apply Qltb_true
  | |- (_ <? _) = false => apply Qltb_false
  | |- (_ <=? _) = true => apply Qleb_true
  | |- (_ <=? _) = false => apply Qleb_false
  end.


(** * The acceptance policy *)

Section Acceptance.
Context `{RT : Runtime}.








End Acceptance.

(** * The scoring function *)

Section Scoring.
Context `{RT : Runtime}.


(** Without a model the boolean-flag agent scores by own utility and time
    pressure only, whatever the flags. *)
Lemma score_bid_without_model (a : Bobo.agent) (progress : Q) (bid : Bid) :
  Bobo.opponent_model a = None ->
  Bobo.score_bid a progress bid
  = 0.95 * time_pressure progress * getUtility bid.
Proof.
  intros Hm. unfold Bobo.score_bid. now rewrite Hm.
Qed.

(** C4, as the code has it.  In the boolean-flag agent with an opponent
    model, when the opponent is classified greedy [score_bid] returns the
    own utility of the bid; two bids of equal own utility then get the same
    score, whatever their predicted opponent utilities and whenever they
    are scored. *)
Theorem score_bid_greedy_own_utility
    (a : Bobo.agent) (m : OpponentModel) (progress : Q) (b1 b2 : Bid) :
  Bobo.opponent_model a = Some m ->
  Bobo.opponent_is_greedy a = true ->
  Bobo.score_bid a progress b1 = getUtility b1
  /\ (forall progress',
        getUtility b1 == getUtility b2 ->
        Bobo.score_bid a progress b1 == Bobo.score_bid a progress' b2).
Proof.
  intros Hm Hg.
  assert (H : forall p b, Bobo.score_bid a p b = getUtility b).
  { intros p b. unfold Bobo.score_bid. rewrite Hm, Hg. cbn [negb andb].
    now destruct (Bobo.opponent_is_nice a). }
  split; [apply H |]. intros p' Hu. now rewrite !H.
Qed.


(** A convex-style combination of two utilities, the second one damped. *)
Lemma damped_combination_bounds (alpha u v g : Q) :
  0 <= alpha <= 1 -> 0 <= u <= 1 -> 0 <= v <= 1 -> 0 <= g <= 1 ->
  0 <= alpha * u + (1 - alpha) * v * (1 - g) <= 1.
Proof.
  intros [Ha0 Ha1] [Hu0 Hu1] [Hv0 Hv1] [Hg0 Hg1].
  assert (H1 : 0 <= alpha * u) by (apply Qmult_le_0_compat; lra).
  assert (H2 : 0 <= alpha * (1 - u)) by (apply Qmult_le_0_compat; lra).
  assert (H3 : 0 <= v * (1 - g)) by (apply Qmult_le_0_compat; lra).
  assert (H4 : 0 <= (1 - v) + v * g).
  { assert (0 <= v * g) by (apply Qmult_le_0_compat; lra). lra. }
  assert (H5 : 0 <= (1 - alpha) * (v * (1 - g)))
    by (apply Qmult_le_0_compat; lra).
  assert (H6 : 0 <= (1 - alpha) * (1 - v * (1 - g)))
    by (apply Qmult_le_0_compat; lra).
  split; lra.
Qed.


End Scoring.

(** * The behaviour classifier *)

Section Classifier.
Context `{RT : Runtime}.

Lemma bobo_run_cons (a : Bobo.agent) (act : Action) (rest : list Action) :
  Bobo.run a (act :: rest) = Bobo.run (Bobo.opponent_action a act) rest.
Proof. reflexivity. Qed.

Lemma dynamic_run_cons (d : BoboDynamic.agent) (p : Q) (act : Action)
    (rest : list (Q * Action)) :
  BoboDynamic.run d ((p, act) :: rest)
  = BoboDynamic.run (BoboDynamic.opponent_action d p act) rest.
Proof. reflexivity. Qed.

(** Every offer is recorded: the history grows by one. *)
Lemma bobo_offer_recorded (a : Bobo.agent) (x : option PartyId) (b : Bid) :
  List.length (Bobo.opponent_utils (Bobo.opponent_action a (Offer x b)))
  = S (List.length (Bobo.opponent_utils a)).
Proof.
  unfold Bobo.opponent_action.
  destruct (3 <=? _)%nat; cbn [Bobo.opponent_utils];
    rewrite length_app; cbn; lia.
Qed.

Lemma dynamic_offer_recorded (d : BoboDynamic.agent) (p : Q)
    (x : option PartyId) (b : Bid) :
  List.length
    (BoboDynamic.opponent_utils (BoboDynamic.opponent_action d p (Offer x b)))
  = S (List.length (BoboDynamic.opponent_utils d)).
Proof.
  unfold BoboDynamic.opponent_action.
  destruct (3 <=? _)%nat; cbn [BoboDynamic.opponent_utils];
    rewrite length_app; cbn; lia.
Qed.

(** The history never shrinks. *)
Lemma bobo_history_grows (actions : list Action) (a : Bobo.agent) :
  (List.length (Bobo.opponent_utils a)
   <= List.length (Bobo.opponent_utils (Bobo.run a actions)))%nat.
Proof.
  revert a. induction actions as [| act rest IH]; intros a; [apply le_n |].
  rewrite bobo_run_cons. eapply Nat.le_trans; [| apply IH].
  destruct act as [x b | x b]; [rewrite bobo_offer_recorded; lia | apply le_n].
Qed.

Lemma dynamic_history_grows (steps : list (Q * Action))
    (d : BoboDynamic.agent) :
  (List.length (BoboDynamic.opponent_utils d)
   <= List.length (BoboDynamic.opponent_utils (BoboDynamic.run d steps)))%nat.
Proof.
  revert d. induction steps as [| [p act] rest IH]; intros d; [apply le_n |].
  rewrite dynamic_run_cons. eapply Nat.le_trans; [| apply IH].
  destruct act as [x b | x b];
    [rewrite dynamic_offer_recorded; lia | apply le_n].
Qed.

(** One action that leaves fewer than three recorded offers leaves the
    signals alone. *)
Lemma bobo_step_neutral (a : Bobo.agent) (act : Action) :
  (List.length (Bobo.opponent_utils (Bobo.opponent_action a act)) < 3)%nat ->
  Bobo.opponent_is_greedy (Bobo.opponent_action a act)
  = Bobo.opponent_is_greedy a
  /\ Bobo.opponent_is_nice (Bobo.opponent_action a act)
     = Bobo.opponent_is_nice a.
Proof.
  destruct act as [x b | x b]; [| now split].
  intros H. rewrite bobo_offer_recorded in H. unfold Bobo.opponent_action.
  destruct (3 <=? _)%nat eqn:E; [| now split].
  apply Nat.leb_le in E. rewrite length_app in E. cbn in E. lia.
Qed.

Lemma dynamic_step_neutral (d : BoboDynamic.agent) (p : Q) (act : Action) :
  (List.length
     (BoboDynamic.opponent_utils (BoboDynamic.opponent_action d p act)) < 3)%nat ->
  BoboDynamic.greedy_weight (BoboDynamic.opponent_action d p act)
  = BoboDynamic.greedy_weight d
  /\ BoboDynamic.nice_weight (BoboDynamic.opponent_action d p act)
     = BoboDynamic.nice_weight d.
Proof.
  destruct act as [x b | x b]; [| now split].
  intros H. rewrite dynamic_offer_recorded in H.
  unfold BoboDynamic.opponent_action.
  destruct (3 <=? _)%nat eqn:E; [| now split].
  apply Nat.leb_le in E. rewrite length_app in E. cbn in E. lia.
Qed.

Lemma bobo_run_neutral (actions : list Action) (a : Bobo.agent) :
  (List.length (Bobo.opponent_utils (Bobo.run a actions)) < 3)%nat ->
  Bobo.opponent_is_greedy (Bobo.run a actions) = Bobo.opponent_is_greedy a
  /\ Bobo.opponent_is_nice (Bobo.run a actions) = Bobo.opponent_is_nice a.
Proof.
  revert a. induction actions as [| act rest IH]; intros a H; [now split |].
  rewrite bobo_run_cons in *. destruct (IH _ H) as [Hg Hn].
  pose proof (bobo_history_grows rest (Bobo.opponent_action a act)) as Hl.
  destruct (bobo_step_neutral a act) as [Hg' Hn']; [lia |].
  split; congruence.
Qed.

Lemma dynamic_run_neutral (steps : list (Q * Action))
    (d : BoboDynamic.agent) :
  (List.length (BoboDynamic.opponent_utils (BoboDynamic.run d steps)) < 3)%nat ->
  BoboDynamic.greedy_weight (BoboDynamic.run d steps)
  = BoboDynamic.greedy_weight d
  /\ BoboDynamic.nice_weight (BoboDynamic.run d steps)
     = BoboDynamic.nice_weight d.
Proof.
  revert d. induction steps as [| [p act] rest IH]; intros d H;
    [now split |].
  rewrite dynamic_run_cons in *. destruct (IH _ H) as [Hg Hn].
  pose proof (dynamic_history_grows rest (BoboDynamic.opponent_action d p act))
    as Hl.
  destruct (dynamic_step_neutral d p act) as [Hg' Hn']; [lia |].
  split; congruence.
Qed.

(** C8.  As long as fewer than three offers of the opponent have been
    recorded, the signals have their initial values, false and false in the
    boolean-flag agent and 0 and 0 in the continuous-weight agent, whatever
    the bids offered, the answers of the opponent model and the progress. *)
Theorem signals_neutral_before_three_offers
    (actions : list Action) (steps : list (Q * Action)) :
  let a := Bobo.run Bobo.init actions in
  let d := BoboDynamic.run BoboDynamic.init steps in
  (List.length (Bobo.opponent_utils a) < 3)%nat ->
  (List.length (BoboDynamic.opponent_utils d) < 3)%nat ->
  (Bobo.opponent_is_greedy a = false /\ Bobo.opponent_is_nice a = false)
  /\ (BoboDynamic.greedy_weight d = 0 /\ BoboDynamic.nice_weight d = 0).
Proof.
  intros a d Ha Hd. split.
  - now apply bobo_run_neutral in Ha.
  - now apply dynamic_run_neutral in Hd.
Qed.

(** What one offer does to the flags of the boolean-flag agent: a flag is
    raised when the average of the window is in its band and is never
    lowered. *)
Lemma bobo_offer_latches (a : Bobo.agent) (x : option PartyId) (b : Bid) :
  let a' := Bobo.opponent_action a (Offer x b) in
  let avg := window_average (Bobo.opponent_utils a') in
  let active := (3 <=? List.length (Bobo.opponent_utils a'))%nat in
  Bobo.opponent_is_greedy a'
  = Bobo.opponent_is_greedy a || active && (avg >? 0.87)
  /\ Bobo.opponent_is_nice a'
     = Bobo.opponent_is_nice a || active && ((0.6 <? avg) && (avg <? 0.9)).
Proof.
  unfold Bobo.opponent_action, window_average.
  destruct (3 <=? _)%nat eqn:E;
    cbn [Bobo.opponent_utils Bobo.opponent_is_greedy Bobo.opponent_is_nice];
    rewrite E; cbn [andb].
  - split.
    + destruct (_ >? 0.87); [now rewrite orb_true_r | now rewrite orb_false_r].
    + destruct ((0.6 <? _) && _); [now rewrite orb_true_r | now rewrite orb_false_r].
  - now rewrite !orb_false_r.
Qed.


Lemma clamp01_range (x : Q) : 0 <= clamp01 x <= 1.
Proof.
  unfold clamp01. split.
  - apply Q.min_glb; [lra | apply Q.le_max_l].
  - apply Q.le_min_l.
Qed.

(** The weights of the continuous-weight agent never leave [0, 1]. *)
Lemma dynamic_weights_in_range (steps : list (Q * Action))
    (d : BoboDynamic.agent) :
  0 <= BoboDynamic.greedy_weight d <= 1 ->
  0 <= BoboDynamic.nice_weight d <= 1 ->
  0 <= BoboDynamic.greedy_weight (BoboDynamic.run d steps) <= 1
  /\ 0 <= BoboDynamic.nice_weight (BoboDynamic.run d steps) <= 1.
Proof.
  revert d. induction steps as [| [p act] rest IH]; intros d Hg Hn;
    [now split |].
  rewrite dynamic_run_cons. destruct act as [x b | x b]; [| now apply IH].
  apply IH; unfold BoboDynamic.opponent_action;
    destruct (3 <=? _)%nat;
    cbn [BoboDynamic.greedy_weight BoboDynamic.nice_weight];
    try assumption; apply clamp01_range.
Qed.

(** A raised flag survives every later action. *)
Lemma bobo_greedy_persists (actions : list Action) (a : Bobo.agent) :
  Bobo.opponent_is_greedy a = true ->
  Bobo.opponent_is_greedy (Bobo.run a actions) = true.
Proof.
  revert a. induction actions as [| act rest IH]; intros a H; [exact H |].
  rewrite bobo_run_cons. apply IH. destruct act as [x b | x b]; [| exact H].
  destruct (bobo_offer_latches a x b) as [Hg _]. now rewrite Hg, H.
Qed.


(** The average of a full window of offers all predicted at 0.95. *)
Lemma window_average_five (l : list Q) :
  List.length l = 5%nat ->
  Forall (fun u => u == 0.95) l ->
  window_average l == 0.95.
Proof.
  intros Hl Hall.
  do 5 (destruct l as [| ? l]; [discriminate Hl |]).
  destruct l; [| discriminate Hl].
  repeat match goal with
         | H : Forall _ (_ :: _) |- _ =>
             let E := fresh "E" in
             let T := fresh "T" in
             inversion H as [| ? ? E T]; subst; clear H
         end.
  unfold window_average, last_n, py_sum, py_len.
  cbn [List.length Nat.sub skipn fold_left Z.of_nat].
  change (inject_Z (Z.pos (Pos.of_succ_nat 4))) with 5.
  repeat match goal with
         | E : _ == 0.95 |- _ => rewrite E; clear E
         end.
  reflexivity.
Qed.

(** After an offer the opponent model exists. *)
Lemma bobo_offer_has_model (a : Bobo.agent) (x : option PartyId) (b : Bid) :
  exists m, Bobo.opponent_model (Bobo.opponent_action a (Offer x b)) = Some m.
Proof.
  unfold Bobo.opponent_action. destruct (3 <=? _)%nat; eexists; reflexivity.
Qed.

(** C1, as the code has it.  After five consecutive offers of the opponent,
    each predicted at 0.95, the boolean-flag agent holds the opponent for
    greedy.  A received offer of own utility 0.68 is then accepted at every
    progress, 0.3 included: it is above the 0.65 of the branch for greedy
    opponents.  The offers refused early and taken as a last resort are
    those of own utility in (0.6, 0.65]: they are accepted exactly when the
    progress is above 0.99. *)
Theorem greedy_scenario_acceptance
    (x1 x2 x3 x4 x5 : option PartyId) (b1 b2 b3 b4 b5 : Bid) (bid : Bid) :
  let a :=
    Bobo.run Bobo.init
      [Offer x1 b1; Offer x2 b2; Offer x3 b3; Offer x4 b4; Offer x5 b5] in
  Forall (fun u => u == 0.95) (Bobo.opponent_utils a) ->
  Bobo.opponent_is_greedy a = true
  /\ (getUtility bid == 0.68 ->
      forall progress, Bobo.accept_condition a progress (Some bid) = true)
  /\ (0.6 < getUtility bid <= 0.65 ->
      forall progress,
        Bobo.accept_condition a progress (Some bid) = (progress >? 0.99)).
Proof.
  intros a Hall.
  unfold Bobo.run in a. cbn [fold_left] in a.
  assert (Hlen : List.length (Bobo.opponent_utils a) = 5%nat).
  { unfold a. now rewrite !bobo_offer_recorded. }
  assert (Hg : Bobo.opponent_is_greedy a = true).
  { pose proof (window_average_five _ Hlen Hall) as Havg.
    unfold a in *. destruct (bobo_offer_latches
      (Bobo.opponent_action (Bobo.opponent_action (Bobo.opponent_action
        (Bobo.opponent_action Bobo.init (Offer x1 b1)) (Offer x2 b2))
        (Offer x3 b3)) (Offer x4 b4)) x5 b5) as [H _].
    rewrite H, Hlen. cbn [Nat.leb andb].
    assert (E : (window_average (Bobo.opponent_utils
      (Bobo.opponent_action (Bobo.opponent_action (Bobo.opponent_action
        (Bobo.opponent_action (Bobo.opponent_action Bobo.init (Offer x1 b1))
        (Offer x2 b2)) (Offer x3 b3)) (Offer x4 b4)) (Offer x5 b5)))
      >? 0.87) = true) by (qreflect; lra).
    rewrite E. apply orb_true_r. }
  destruct (bobo_offer_has_model
    (Bobo.opponent_action (Bobo.opponent_action (Bobo.opponent_action
      (Bobo.opponent_action Bobo.init (Offer x1 b1)) (Offer x2 b2))
      (Offer x3 b3)) (Offer x4 b4)) x5 b5) as [m Hm].
  fold a in Hm. split; [exact Hg |]. split.
  - intros Hu progress. unfold Bobo.accept_condition. cbv zeta. rewrite Hg.
    assert (E : (getUtility bid >? 0.65) = true) by (qreflect; lra).
    rewrite E. now destruct (getUtility bid >=? 0.9).
  - intros [Hu0 Hu1] progress. unfold Bobo.accept_condition. cbv zeta.
    rewrite Hg, Hm.
    assert (E9 : (getUtility bid >=? 0.9) = false) by (qreflect; lra).
    assert (E65 : (getUtility bid >? 0.65) = false) by (qreflect; lra).
    assert (E6 : (getUtility bid >? 0.6) = true) by (qreflect; lra).
    assert (E7 : (getUtility bid >? 0.7) = false) by (qreflect; lra).
    rewrite E9, E65, E6, E7. cbn [andb]. rewrite andb_true_r, andb_false_r.
    now destruct (progress >? 0.99).
Qed.

End Classifier.

(** * The bid search *)

Section Search.
Context `{RT : Runtime}.

Section Loop.
Variables (floor : Q) (rand : nat -> nat) (score : nat -> Bid -> Q).




End Loop.



End Search.

(** * Persistence of the classification *)

Section Strings.

Lemma append_assoc (x y z : string) :
  ((x ++ y) ++ z = x ++ (y ++ z))%string.
Proof.
  induction x as [| c x IH]; cbn [append]; [reflexivity | now rewrite IH].
Qed.

Lemma contains_app (c : ascii) (x y : string) :
  contains c (x ++ y) = contains c x || contains c y.
Proof.
  induction x as [| d x IH]; cbn [append contains]; [reflexivity |].
  now rewrite IH, orb_assoc.
Qed.

(** [rstrip] only looks at the end of the text. *)
Lemma rstrip_app (x y : string) :
  rstrip y <> EmptyString -> rstrip (x ++ y) = (x ++ rstrip y)%string.
Proof.
  intros Hy. induction x as [| c x IH]; cbn [append rstrip]; [reflexivity |].
  rewrite IH. destruct (x ++ rstrip y)%string eqn:E; [| reflexivity].
  destruct x; cbn [append] in E; [contradiction | discriminate E].
Qed.

Lemma lstrip_clean (x y : string) :
  starts_with_space (x ++ y) = false -> lstrip (x ++ y) = (x ++ y)%string.
Proof.
  destruct (x ++ y)%string as [| c r]; cbn [starts_with_space lstrip];
    [reflexivity |].
  now intros ->.
Qed.

(** The first field ends at the first separator. *)
Lemma split_first_field (sep : ascii) (x r : string) :
  contains sep x = false ->
  split sep (x ++ String sep r) = x :: split sep r.
Proof.
  induction x as [| c x IH]; cbn [append split contains]; intros H.
  - unfold is_char. now rewrite Ascii.eqb_refl.
  - apply orb_false_iff in H. destruct H as [Hc Hx].
    rewrite Hc, (IH Hx). reflexivity.
Qed.

(** A text without line break, closed by ["\n"], is one line. *)
Lemma readlines_one_line (x : string) :
  contains LF x = false -> contains CR x = false ->
  readlines_from false (x ++ String LF EmptyString)
  = [(x ++ String LF EmptyString)%string].
Proof.
  induction x as [| c x IH]; cbn [append readlines_from contains];
    intros Hlf Hcr.
  - reflexivity.
  - apply orb_false_iff in Hlf. destruct Hlf as [Hc Hlf].
    apply orb_false_iff in Hcr. destruct Hcr as [Hc' Hcr].
    rewrite Hc, Hc', (IH Hlf Hcr). reflexivity.
Qed.

Lemma readlines_nonempty (s : string) :
  readlines_from false s = [] -> s = EmptyString.
Proof.
  destruct s as [| c r]; [reflexivity |]. cbn [readlines_from].
  destruct (is_char c LF); [discriminate |].
  destruct (is_char c CR); [discriminate |].
  now destruct (readlines_from false r).
Qed.

Lemma push_char_app (c : ascii) (ls ls' : list string) :
  ls <> [] -> push_char c (ls ++ ls') = push_char c ls ++ ls'.
Proof.
  destruct ls; [contradiction | reflexivity].
Qed.

(** What follows a text that ends with ["\n"] is read as lines of its
    own. *)
Lemma readlines_app_nonempty (x y : string) :
  x <> EmptyString -> line_complete x = true ->
  forall after_cr,
    readlines_from after_cr (x ++ y)
    = readlines_from after_cr x ++ readlines_from false y.
Proof.
  induction x as [| c x IH]; intros Hne Hx after_cr; [contradiction |].
  destruct x as [| d x].
  - cbn [line_complete] in Hx. cbn [append readlines_from]. rewrite Hx.
    now destruct after_cr.
  - assert (IH' : forall f, readlines_from f (String d x ++ y)
                            = readlines_from f (String d x)
                              ++ readlines_from false y)
      by (apply IH; [discriminate | exact Hx]).
    change (String c (String d x) ++ y)%string
      with (String c (String d x ++ y)).
    cbn [readlines_from] in *.
    destruct (is_char c LF).
    + destruct after_cr; rewrite IH'; reflexivity.
    + destruct (is_char c CR); rewrite IH'; [reflexivity |].
      apply push_char_app. intros E.
      apply (readlines_nonempty (String d x)) in E. discriminate E.
Qed.

Lemma readlines_app (x y : string) :
  line_complete x = true ->
  readlines (x ++ y) = readlines x ++ readlines y.
Proof.
  intros Hx. destruct x as [| c x]; [reflexivity |].
  now apply readlines_app_nonempty.
Qed.

End Strings.

Section Persistence.
Context `{RT : Runtime}.

(** Without a name for the opponent no record matches. *)
Lemma load_lines_unknown (a : Bobo.agent) (lines : list string) :
  Bobo.other a = None -> Bobo.load_lines a lines = a.
Proof.
  intros Ho. induction lines as [| line rest IH]; cbn [Bobo.load_lines];
    [reflexivity |].
  rewrite Ho. cbn [eq_opt_string]. now rewrite andb_false_r.
Qed.

(** The loop passes over the lines that hold no record for the opponent. *)
Lemma load_lines_skip (name : string) (a : Bobo.agent)
    (lines rest : list string) :
  Bobo.other a = Some name ->
  existsb (Bobo.record_matches name) lines = false ->
  Bobo.load_lines a (lines ++ rest) = Bobo.load_lines a rest.
Proof.
  intros Ho. induction lines as [| line lines IH]; cbn [existsb app];
    intros H; [reflexivity |].
  apply orb_false_iff in H. destruct H as [Hline Hlines].
  cbn [Bobo.load_lines]. rewrite Ho. cbn [eq_opt_string].
  unfold Bobo.record_matches in Hline. cbv zeta in Hline. rewrite Hline.
  now apply IH.
Qed.

(** The record of [save_data], read back: one line, three fields. *)
Lemma record_line_fields (name : string) (greedy nice : bool) :
  clean_name name = true ->
  readlines (Bobo.record_line name greedy nice)
  = [Bobo.record_line name greedy nice]
  /\ split comma (strip (Bobo.record_line name greedy nice))
     = [name; str_of_bool greedy; str_of_bool nice].
Proof.
  unfold clean_name. rewrite !andb_true_iff, !negb_true_iff.
  intros [[[Hcomma Hlf] Hcr] Hsp].
  set (tail := (String comma (str_of_bool greedy ++ String comma
                                (str_of_bool nice)))%string).
  assert (Hrec : Bobo.record_line name greedy nice
                 = ((name ++ tail) ++ String LF EmptyString)%string).
  { unfold Bobo.record_line, tail. rewrite append_assoc.
    now destruct greedy, nice. }
  assert (Htail : contains LF tail = false /\ contains CR tail = false
                  /\ rstrip (tail ++ String LF EmptyString) = tail)
    by (unfold tail; now destruct greedy, nice).
  destruct Htail as (Htlf & Htcr & Hstrip).
  split.
  - rewrite Hrec. apply readlines_one_line; rewrite contains_app.
    + now rewrite Hlf, Htlf.
    + now rewrite Hcr, Htcr.
  - rewrite Hrec, append_assoc. unfold strip.
    rewrite rstrip_app, Hstrip
      by (rewrite Hstrip; unfold tail; discriminate).
    rewrite lstrip_clean.
    + unfold tail. rewrite (split_first_field comma name _ Hcomma).
      now destruct greedy, nice.
    + destruct name; [reflexivity | exact Hsp].
Qed.

Lemma str_of_bool_read (b : bool) :
  String.eqb (str_of_bool b) "True" = b.
Proof. now destruct b. Qed.

(** C2, as the code has it.  In the boolean-flag agent, let the opponent be
    known under a name without comma, line break or leading white space,
    and let the store be absent, empty or closed by a line feed and hold no
    record for that name.  Then [load_opponent_data], run after [save_data]
    by an agent that knows the opponent under the same name, sets the two
    flags to the saved ones and changes nothing else. *)
Theorem load_after_save
    (a fresh : Bobo.agent) (name : string) (store : Store) :
  Bobo.other a = Some name ->
  Bobo.other fresh = Some name ->
  clean_name name = true ->
  Bobo.appendable store = true ->
  Bobo.has_record name store = false ->
  Bobo.load_opponent_data fresh (Bobo.save_data a store)
  = Bobo.set_flags fresh (Bobo.opponent_is_greedy a)
                   (Bobo.opponent_is_nice a).
Proof.
  intros Ha Hf Hname Happ Hrec.
  destruct (record_line_fields name (Bobo.opponent_is_greedy a)
              (Bobo.opponent_is_nice a) Hname) as [Hlines Hfields].
  assert (Hone : Bobo.load_lines fresh
                   [Bobo.record_line name (Bobo.opponent_is_greedy a)
                                     (Bobo.opponent_is_nice a)]
                 = Bobo.set_flags fresh (Bobo.opponent_is_greedy a)
                                  (Bobo.opponent_is_nice a)).
  { cbn [Bobo.load_lines]. rewrite Hfields, Hf.
    cbn [List.length Nat.eqb nth eq_opt_string andb].
    now rewrite String.eqb_refl, !str_of_bool_read. }
  unfold Bobo.save_data. rewrite Ha.
  destruct store as [content |]; cbn [Bobo.load_opponent_data].
  - cbn [Bobo.appendable Bobo.has_record] in Happ, Hrec.
    rewrite (readlines_app _ _ Happ), Hlines.
    now rewrite (load_lines_skip name fresh _ _ Hf Hrec).
  - now rewrite Hlines.
Qed.

(** At the start of a session the opponent has no name yet: the settings
    load nothing, whatever the store holds. *)
Lemma settings_load_nothing (id : PartyId) (store : Store)
    (progress progress' : Q) (clock : nat -> Q) (rand : nat -> nat) :
  Bobo.notifyChange Bobo.init store (Settings id) progress progress' clock rand
  = (Bobo.set_me Bobo.init (Some id), store, None).
Proof.
  cbn [Bobo.notifyChange]. unfold Bobo.load_opponent_data.
  destruct store as [content |]; [| reflexivity].
  now rewrite load_lines_unknown.
Qed.

(** The continuous-weight agent stores a fixed text, whatever it has
    learnt. *)
Lemma dynamic_save_forgets (d d' : BoboDynamic.agent) (store store' : Store) :
  BoboDynamic.save_data d store = BoboDynamic.save_data d' store'.
Proof. reflexivity. Qed.

End Persistence.

(** * The claims on the small runtime

    Each property above that has premises is applied here to the agents
    running on the runtime of [Fixture]; the inputs on which a sentence of
    the specification fails are evaluated here as well. *)

Section Scenarios.
#[local] Existing Instance Fixture.table_runtime.

(** Orders between given numbers, by evaluation. *)
Ltac qeval :=
  match goal with
  | |- _ /\ _ => split; qeval
  | |- _ <= _ => apply Qle_bool_iff; vm_compute; reflexivity
  | |- _ < _ => apply Qltb_true; vm_compute; reflexivity
  | |- _ == _ => vm_compute; reflexivity
  | |- (_ < _)%nat => vm_compute; lia
  | |- (_ <= _)%nat => vm_compute; lia
  | |- _ = _ => vm_compute; reflexivity
  end.

(** C1 fails as stated: once the five offers at 0.95 have made the opponent
    greedy, the offer of own utility 0.68 is accepted at progress 0.3. *)
Lemma greedy_scenario_accepts_early :
  Bobo.opponent_utils Fixture.greedy_state = [0.95; 0.95; 0.95; 0.95; 0.95]
  /\ Bobo.opponent_is_greedy Fixture.greedy_state = true
  /\ getUtility 0%nat = 0.68
  /\ ~ (Bobo.accept_condition Fixture.greedy_state 0.3 (Some 0%nat) = false
        /\ Bobo.accept_condition Fixture.greedy_state 0.995 (Some 0%nat)
           = true).
Proof.
  split; [vm_compute; reflexivity |].
  split; [vm_compute; reflexivity |].
  split; [vm_compute; reflexivity |].
  intros [H _]. vm_compute in H. discriminate H.
Qed.

(** C1 at work: the five offers of bid 0, then bids 0 (own utility 0.68)
    and 1 (own utility 0.62) received at progress 0.3 and 0.995. *)
Lemma greedy_scenario_acceptance_witness :
  Forall (fun u => u == 0.95) (Bobo.opponent_utils Fixture.greedy_state)
  /\ getUtility 0%nat == 0.68
  /\ 0.6 < getUtility 1%nat <= 0.65
  /\ Bobo.opponent_is_greedy Fixture.greedy_state = true
  /\ Bobo.accept_condition Fixture.greedy_state 0.3 (Some 0%nat) = true
  /\ Bobo.accept_condition Fixture.greedy_state 0.3 (Some 1%nat)
     = (0.3 >? 0.99)
  /\ Bobo.accept_condition Fixture.greedy_state 0.995 (Some 1%nat)
     = (0.995 >? 0.99).
Proof.
  assert (Hall : Forall (fun u => u == 0.95)
                        (Bobo.opponent_utils Fixture.greedy_state))
    by (repeat constructor).
  assert (H0 : getUtility 0%nat == 0.68) by qeval.
  assert (H1 : 0.6 < getUtility 1%nat <= 0.65) by qeval.
  destruct (greedy_scenario_acceptance (RT := Fixture.table_runtime)
              Fixture.opponent Fixture.opponent Fixture.opponent
              Fixture.opponent Fixture.opponent 0%nat 0%nat 0%nat 0%nat 0%nat
              0%nat Hall) as (Hg & Ha & _).
  destruct (greedy_scenario_acceptance (RT := Fixture.table_runtime)
              Fixture.opponent Fixture.opponent Fixture.opponent
              Fixture.opponent Fixture.opponent 0%nat 0%nat 0%nat 0%nat 0%nat
              1%nat Hall) as (_ & _ & Hb).
  split; [exact Hall |]. split; [exact H0 |]. split; [exact H1 |].
  split; [exact Hg |]. split; [exact (Ha H0 0.3) |].
  split; [exact (Hb H1 0.3) | exact (Hb H1 0.995)].
Defined.


(** C4 fails as stated in the continuous-weight agent: after the five
    offers at 0.95 the greedy weight is 0.9, and bids 2 and 4, of the same
    own utility 0.9, get different scores, none of them 0.9. *)
Lemma dynamic_score_depends_on_prediction :
  BoboDynamic.greedy_weight Fixture.dynamic_greedy_state == 0.9
  /\ getUtility 2%nat = getUtility 4%nat
  /\ ~ BoboDynamic.score_bid Fixture.dynamic_greedy_state 0 2%nat
       == BoboDynamic.score_bid Fixture.dynamic_greedy_state 0 4%nat
  /\ ~ BoboDynamic.score_bid Fixture.dynamic_greedy_state 0 2%nat
       == getUtility 2%nat.
Proof.
  split; [vm_compute; reflexivity |]. split; [reflexivity |].
  split; intros H; vm_compute in H; discriminate H.
Qed.

(** C4 at work: bids 2 and 4 scored for the greedy opponent, at different
    moments. *)
Lemma score_bid_greedy_own_utility_witness :
  Bobo.opponent_model Fixture.greedy_state = Some tt
  /\ Bobo.opponent_is_greedy Fixture.greedy_state = true
  /\ getUtility 2%nat == getUtility 4%nat
  /\ Bobo.score_bid Fixture.greedy_state 0.3 2%nat = getUtility 2%nat
  /\ Bobo.score_bid Fixture.greedy_state 0.3 2%nat
     == Bobo.score_bid Fixture.greedy_state 0.9 4%nat.
Proof.
  assert (Hm : Bobo.opponent_model Fixture.greedy_state = Some tt)
    by (vm_compute; reflexivity).
  assert (Hg : Bobo.opponent_is_greedy Fixture.greedy_state = true)
    by (vm_compute; reflexivity).
  assert (Hu : getUtility 2%nat == getUtility 4%nat) by qeval.
  destruct (score_bid_greedy_own_utility (RT := Fixture.table_runtime)
              Fixture.greedy_state tt 0.3 2%nat 4%nat Hm Hg) as [H1 H2].
  split; [exact Hm |]. split; [exact Hg |]. split; [exact Hu |].
  split; [exact H1 | exact (H2 0.9 Hu)].
Defined.






(** C8 at work: two offers predicted at 0.95. *)
Lemma signals_neutral_before_three_offers_witness :
  let a := Bobo.run Bobo.init (Fixture.offers [0; 0]%nat) in
  let d := BoboDynamic.run BoboDynamic.init (Fixture.offers_at 0.5 [0; 0]%nat) in
  ((List.length (Bobo.opponent_utils a) < 3)%nat
   /\ (List.length (BoboDynamic.opponent_utils d) < 3)%nat)
  /\ (Bobo.opponent_is_greedy a = false /\ Bobo.opponent_is_nice a = false)
  /\ (BoboDynamic.greedy_weight d = 0 /\ BoboDynamic.nice_weight d = 0).
Proof.
  intros a d.
  assert (Ha : (List.length (Bobo.opponent_utils a) < 3)%nat)
    by (vm_compute; lia).
  assert (Hd : (List.length (BoboDynamic.opponent_utils d) < 3)%nat)
    by (vm_compute; lia).
  split; [now split |].
  exact (signals_neutral_before_three_offers (RT := Fixture.table_runtime)
           (Fixture.offers [0; 0]%nat) (Fixture.offers_at 0.5 [0; 0]%nat)
           Ha Hd).
Defined.



(** C2 fails as stated.  The store already holds an older record for "X":
    the new record is appended behind it and the first match is the one
    read, so an agent that knows its opponent "X" reads the older flags
    back.  The continuous-weight agent writes a fixed text. *)
Lemma reload_reads_older_record :
  Bobo.other Fixture.knows_X = Some "X"%string
  /\ Bobo.opponent_is_greedy Fixture.knows_X = true
  /\ Bobo.save_data Fixture.knows_X Fixture.older_record
     = Some (Bobo.record_line "X" false false
             ++ Bobo.record_line "X" true true)%string
  /\ Bobo.opponent_is_greedy
       (Bobo.load_opponent_data (Bobo.set_other Bobo.init (Some "X"%string))
          (Bobo.save_data Fixture.knows_X Fixture.older_record)) = false
  /\ BoboDynamic.save_data Fixture.dynamic_greedy_state None
     = Some "Learning data (see README.md)"%string.
Proof.
  repeat split; vm_compute; reflexivity.
Qed.

(** A whole session against "X" and the start of the next one: the first
    leaves the record ["X,True,False"], the second starts, and stays after
    the first offer of "X", with both flags down. *)
Lemma next_session_starts_neutral :
  let run := Bobo.session 0 (Fixture.still_clock 0) Fixture.stubborn_draws in
  let first := run None Fixture.session_against_X in
  Bobo.other (fst first) = Some "X"%string
  /\ Bobo.opponent_is_greedy (fst first) = true
  /\ snd first = Some (Bobo.record_line "X" true false)
  /\ Bobo.opponent_is_greedy
       (fst (run (snd first) Fixture.next_session_start)) = false
  /\ Bobo.opponent_is_greedy
       (fst (run (snd first) Fixture.next_session_first_offer)) = false.
Proof.
  repeat split; vm_compute; reflexivity.
Qed.

(** C2 at work: the record of "X" appended to a store that holds a record
    of "Y" only. *)
Lemma load_after_save_witness :
  (Bobo.other Fixture.knows_X = Some "X"%string
   /\ Bobo.other (Bobo.set_other Bobo.init (Some "X"%string))
      = Some "X"%string
   /\ clean_name "X" = true
   /\ Bobo.appendable (Some (Bobo.record_line "Y" false true)) = true
   /\ Bobo.has_record "X" (Some (Bobo.record_line "Y" false true)) = false)
  /\ Bobo.load_opponent_data (Bobo.set_other Bobo.init (Some "X"%string))
       (Bobo.save_data Fixture.knows_X
          (Some (Bobo.record_line "Y" false true)))
     = Bobo.set_flags (Bobo.set_other Bobo.init (Some "X"%string))
         (Bobo.opponent_is_greedy Fixture.knows_X)
         (Bobo.opponent_is_nice Fixture.knows_X).
Proof.
  assert (Ha : Bobo.other Fixture.knows_X = Some "X"%string)
    by reflexivity.
  assert (Hf : Bobo.other (Bobo.set_other Bobo.init (Some "X"%string))
               = Some "X"%string) by reflexivity.
  assert (Hn : clean_name "X" = true) by (vm_compute; reflexivity).
  assert (Hs : Bobo.appendable (Some (Bobo.record_line "Y" false true))
               = true) by (vm_compute; reflexivity).
  assert (Hr : Bobo.has_record "X" (Some (Bobo.record_line "Y" false true))
               = false) by (vm_compute; reflexivity).
  split; [now repeat split |].
  exact (load_after_save (RT := Fixture.table_runtime) Fixture.knows_X
           (Bobo.set_other Bobo.init (Some "X"%string)) "X"
           (Some (Bobo.record_line "Y" false true)) Ha Hf Hn Hs Hr).
Defined.

End Scenarios.

(** * Sessions *)

Section Sessions.
Context `{RT : Runtime}.
Variables (progress : Q) (clock : nat -> Q) (rand : nat -> nat).

Lemma bobo_session_step (st : Bobo.agent * Store) (data : Inform)
    (messages : list Inform) :
  fold_left (Bobo.handle progress clock rand) (data :: messages) st
  = fold_left (Bobo.handle progress clock rand) messages
              (Bobo.handle progress clock rand st data).
Proof. reflexivity. Qed.

Lemma dynamic_session_step (st : BoboDynamic.agent * Store) (data : Inform)
    (messages : list Inform) :
  fold_left (BoboDynamic.handle progress clock rand) (data :: messages) st
  = fold_left (BoboDynamic.handle progress clock rand) messages
              (BoboDynamic.handle progress clock rand st data).
Proof. reflexivity. Qed.

(** [load_opponent_data] writes the two flags and nothing else. *)
Lemma load_lines_flags_only (a : Bobo.agent) (lines : list string) :
  exists greedy nice, Bobo.load_lines a lines = Bobo.set_flags a greedy nice.
Proof.
  induction lines as [| line rest IH]; cbn [Bobo.load_lines].
  - exists (Bobo.opponent_is_greedy a), (Bobo.opponent_is_nice a).
    now destruct a.
  - destruct (_ && _); [eexists; eexists; reflexivity | exact IH].
Qed.

Lemma load_flags_only (a : Bobo.agent) (store : Store) :
  exists greedy nice,
    Bobo.load_opponent_data a store = Bobo.set_flags a greedy nice.
Proof.
  destruct store as [content |]; cbn [Bobo.load_opponent_data].
  - apply load_lines_flags_only.
  - exists (Bobo.opponent_is_greedy a), (Bobo.opponent_is_nice a).
    now destruct a.
Qed.

(** What one message does to the fields of the boolean-flag agent that
    record the offers. *)
Lemma bobo_handle_consistent (st : Bobo.agent * Store) (data : Inform) :
  let a := fst st in
  let a' := fst (Bobo.handle progress clock rand st data) in
  ((Bobo.opponent_model a = None <-> Bobo.opponent_utils a = [])
   /\ (Bobo.last_received_bid a = None <-> Bobo.opponent_utils a = [])) ->
  (Bobo.opponent_model a' = None <-> Bobo.opponent_utils a' = [])
  /\ (Bobo.last_received_bid a' = None <-> Bobo.opponent_utils a' = []).
Proof.
  destruct st as [a store]. cbn [fst]. intros Hinv.
  unfold Bobo.handle. cbn [fst snd].
  destruct data as [id | action | | |]; cbn [Bobo.notifyChange fst];
    try exact Hinv.
  - destruct (load_flags_only (Bobo.set_me a (Some id)) store)
      as (g & n & ->). exact Hinv.
  - destruct (eq_opt_party _ (Bobo.me a)); cbn [fst]; [exact Hinv |].
    destruct action as [x b | x b]; [| exact Hinv].
    unfold Bobo.opponent_action.
    destruct (3 <=? _)%nat;
      cbn [Bobo.opponent_model Bobo.opponent_utils Bobo.last_received_bid];
      split; split; intros H; try discriminate H;
      now destruct (Bobo.opponent_utils (Bobo.set_other a _)).
Qed.

Lemma dynamic_handle_consistent (st : BoboDynamic.agent * Store)
    (data : Inform) :
  let d := fst st in
  let d' := fst (BoboDynamic.handle progress clock rand st data) in
  ((BoboDynamic.opponent_model d = None <-> BoboDynamic.opponent_utils d = [])
   /\ (BoboDynamic.last_received_bid d = None
       <-> BoboDynamic.opponent_utils d = [])) ->
  (BoboDynamic.opponent_model d' = None <-> BoboDynamic.opponent_utils d' = [])
  /\ (BoboDynamic.last_received_bid d' = None
      <-> BoboDynamic.opponent_utils d' = []).
Proof.
  destruct st as [d store]. cbn [fst]. intros Hinv.
  unfold BoboDynamic.handle. cbn [fst snd].
  destruct data as [id | action | | |]; cbn [BoboDynamic.notifyChange fst];
    try exact Hinv.
  destruct (eq_opt_party _ (BoboDynamic.me d)); cbn [fst]; [exact Hinv |].
  destruct action as [x b | x b]; [| exact Hinv].
  unfold BoboDynamic.opponent_action.
  destruct (3 <=? _)%nat;
    cbn [BoboDynamic.opponent_model BoboDynamic.opponent_utils
         BoboDynamic.last_received_bid];
    split; split; intros H; try discriminate H;
    now destruct (BoboDynamic.opponent_utils (BoboDynamic.set_other d _)).
Qed.

(** X1.  At every point of every session, in both agents, the opponent
    model exists exactly when an offer has been recorded, and so does the
    last received bid: a turn that has a bid to judge has a model to judge
    it with. *)
Theorem session_fields_consistent (store : Store) (messages : list Inform) :
  let a := fst (Bobo.session progress clock rand store messages) in
  let d := fst (BoboDynamic.session progress clock rand store messages) in
  ((Bobo.opponent_model a = None <-> Bobo.opponent_utils a = [])
   /\ (Bobo.last_received_bid a = None <-> Bobo.opponent_utils a = []))
  /\ ((BoboDynamic.opponent_model d = None
       <-> BoboDynamic.opponent_utils d = [])
      /\ (BoboDynamic.last_received_bid d = None
          <-> BoboDynamic.opponent_utils d = [])).
Proof.
  cbv zeta. unfold Bobo.session, BoboDynamic.session. split.
  - assert (H0 : (Bobo.opponent_model (fst (Bobo.init, store)) = None
                  <-> Bobo.opponent_utils (fst (Bobo.init, store)) = [])
                 /\ (Bobo.last_received_bid (fst (Bobo.init, store)) = None
                     <-> Bobo.opponent_utils (fst (Bobo.init, store)) = []))
      by (cbn; tauto).
    revert H0. generalize (Bobo.init, store).
    induction messages as [| data rest IH]; intros st H0; [exact H0 |].
    rewrite bobo_session_step. apply IH.
    now apply bobo_handle_consistent.
  - assert (H0 : (BoboDynamic.opponent_model (fst (BoboDynamic.init, store))
                  = None
                  <-> BoboDynamic.opponent_utils
                        (fst (BoboDynamic.init, store)) = [])
                 /\ (BoboDynamic.last_received_bid
                       (fst (BoboDynamic.init, store)) = None
                     <-> BoboDynamic.opponent_utils
                           (fst (BoboDynamic.init, store)) = []))
      by (cbn; tauto).
    revert H0. generalize (BoboDynamic.init, store).
    induction messages as [| data rest IH]; intros st H0; [exact H0 |].
    rewrite dynamic_session_step. apply IH.
    now apply dynamic_handle_consistent.
Qed.

(** Only the end of the negotiation touches the store. *)
Lemma bobo_handle_store (st : Bobo.agent * Store) (data : Inform) :
  is_finished data = false ->
  snd (Bobo.handle progress clock rand st data) = snd st.
Proof.
  destruct st as [a store]. unfold Bobo.handle. cbn [fst snd].
  destruct data as [id | action | | |]; cbn [Bobo.notifyChange fst snd];
    intros H; try reflexivity; try discriminate H.
  now destruct (eq_opt_party _ (Bobo.me a)).
Qed.

Lemma dynamic_handle_store (st : BoboDynamic.agent * Store) (data : Inform) :
  is_finished data = false ->
  snd (BoboDynamic.handle progress clock rand st data) = snd st.
Proof.
  destruct st as [d store]. unfold BoboDynamic.handle. cbn [fst snd].
  destruct data as [id | action | | |];
    cbn [BoboDynamic.notifyChange fst snd];
    intros H; try reflexivity; try discriminate H.
  now destruct (eq_opt_party _ (BoboDynamic.me d)).
Qed.

(** X2.  A session that does not reach the end of the negotiation leaves
    the store as it found it, in both agents. *)
Theorem store_untouched_before_finished
    (store : Store) (messages : list Inform) :
  forallb (fun data => negb (is_finished data)) messages = true ->
  snd (Bobo.session progress clock rand store messages) = store
  /\ snd (BoboDynamic.session progress clock rand store messages) = store.
Proof.
  intros H. unfold Bobo.session, BoboDynamic.session. split.
  - change store with (snd (Bobo.init, store)) at 2.
    generalize (Bobo.init, store).
    induction messages as [| data rest IH]; intros st; [reflexivity |].
    cbn [forallb] in H. apply andb_true_iff in H. destruct H as [Hd Hr].
    rewrite bobo_session_step, (IH Hr).
    apply bobo_handle_store. now apply negb_true_iff.
  - change store with (snd (BoboDynamic.init, store)) at 2.
    generalize (BoboDynamic.init, store).
    induction messages as [| data rest IH]; intros st; [reflexivity |].
    cbn [forallb] in H. apply andb_true_iff in H. destruct H as [Hd Hr].
    rewrite dynamic_session_step, (IH Hr).
    apply dynamic_handle_store. now apply negb_true_iff.
Qed.

(** What is stored stays stored: a message extends the text of the store
    of the boolean-flag agent, if it changes it at all. *)
Lemma bobo_handle_extends (st : Bobo.agent * Store) (data : Inform)
    (content : string) :
  snd st = Some content ->
  exists suffix,
    snd (Bobo.handle progress clock rand st data)
    = Some (content ++ suffix)%string.
Proof.
  destruct st as [a store]. cbn [snd]. intros ->.
  assert (Hsame : exists suffix,
             Some content = Some (content ++ suffix)%string).
  { exists EmptyString. f_equal. clear. induction content as [| c r IH];
      cbn [append]; [reflexivity | now rewrite <- IH]. }
  unfold Bobo.handle. cbn [fst snd].
  destruct data as [id | action | | |]; cbn [Bobo.notifyChange fst snd];
    try exact Hsame.
  - now destruct (eq_opt_party _ (Bobo.me a)).
  - unfold Bobo.save_data. destruct (Bobo.other a) as [name |];
      [eexists; reflexivity | exact Hsame].
Qed.

Lemma append_empty (x : string) : (x ++ EmptyString)%string = x.
Proof.
  induction x as [| c r IH]; cbn [append]; [reflexivity | now rewrite IH].
Qed.

Lemma bobo_fold_extends (messages : list Inform)
    (st : Bobo.agent * Store) (content : string) :
  (exists suffix, snd st = Some (content ++ suffix)%string) ->
  exists suffix,
    snd (fold_left (Bobo.handle progress clock rand) messages st)
    = Some (content ++ suffix)%string.
Proof.
  revert st. induction messages as [| data rest IH]; intros st H0;
    [exact H0 |].
  rewrite bobo_session_step. apply IH.
  destruct H0 as [suffix H0].
  destruct (bobo_handle_extends st data _ H0) as [suffix' H1].
  exists (suffix ++ suffix')%string. now rewrite <- append_assoc.
Qed.

(** X3.  The boolean-flag agent only ever appends to its store: whatever
    the messages of a session, the text the store held before is a prefix
    of the text it holds after. *)
Theorem bobo_store_append_only
    (content : string) (messages : list Inform) :
  exists suffix,
    snd (Bobo.session progress clock rand (Some content) messages)
    = Some (content ++ suffix)%string.
Proof.
  unfold Bobo.session. apply bobo_fold_extends.
  exists EmptyString. cbn [snd]. now rewrite append_empty.
Qed.


(** Apart from the settings, no message makes the boolean-flag agent read
    the store. *)
Lemma bobo_handle_ignores_store (a : Bobo.agent) (s1 s2 : Store)
    (data : Inform) :
  is_settings data = false ->
  fst (Bobo.handle progress clock rand (a, s1) data)
  = fst (Bobo.handle progress clock rand (a, s2) data).
Proof.
  unfold Bobo.handle. cbn [fst snd].
  destruct data as [id | action | | |]; cbn [Bobo.notifyChange fst snd];
    intros H; try reflexivity; try discriminate H.
  now destruct (eq_opt_party _ (Bobo.me a)).
Qed.

(** X5.  What the store holds never reaches the boolean-flag agent: in a
    session that opens with the settings and gets no second settings
    message, the agent is in the same state whatever the store held at the
    start.  (The settings are handled while the opponent has no name yet,
    so no record matches.) *)
Theorem bobo_store_never_read
    (id : PartyId) (messages : list Inform) (s1 s2 : Store) :
  forallb (fun data => negb (is_settings data)) messages = true ->
  fst (Bobo.session progress clock rand s1 (Settings id :: messages))
  = fst (Bobo.session progress clock rand s2 (Settings id :: messages)).
Proof.
  intros H. unfold Bobo.session. rewrite !bobo_session_step.
  unfold Bobo.handle at 2 4. cbn [fst snd].
  rewrite !settings_load_nothing. cbn [fst].
  generalize (Bobo.set_me Bobo.init (Some id)).
  revert s1 s2.
  induction messages as [| data rest IH]; intros s1 s2 a; [reflexivity |].
  cbn [forallb] in H. apply andb_true_iff in H. destruct H as [Hd Hr].
  apply negb_true_iff in Hd. rewrite !bobo_session_step.
  pose proof (bobo_handle_ignores_store a s1 s2 data Hd) as E.
  destruct (Bobo.handle progress clock rand (a, s1) data) as [a1 t1].
  destruct (Bobo.handle progress clock rand (a, s2) data) as [a2 t2].
  cbn [fst] in E. subst a2. now apply IH.
Qed.

End Sessions.

(** * The name of the opponent and the turn *)

Section Turn.
Context `{RT : Runtime}.

Lemma rsplit_head_last (sep : ascii) (x suffix : string) :
  contains sep suffix = false ->
  rsplit_head sep (x ++ String sep suffix) = x.
Proof.
  intros Hs. induction x as [| c x IH]; cbn [append rsplit_head].
  - unfold is_char. now rewrite Ascii.eqb_refl, Hs.
  - rewrite contains_app. cbn [contains]. unfold is_char at 2.
    rewrite Ascii.eqb_refl, orb_true_r, andb_false_r. now rewrite IH.
Qed.

Lemma rsplit_head_none (sep : ascii) (x : string) :
  contains sep x = false -> rsplit_head sep x = x.
Proof.
  induction x as [| c x IH]; cbn [rsplit_head contains]; intros H;
    [reflexivity |].
  apply orb_false_iff in H. destruct H as [Hc Hx].
  now rewrite Hc, (IH Hx).
Qed.

(** X6.  When an action of another party is reported, the agent names its
    opponent after the actor without its last ["_"]-separated part
    ("name_3" gives "name", "a_b_3" gives "a_b"); an actor without ["_"]
    gives its whole name.  In both agents. *)
Theorem opponent_named_after_actor
    (a : Bobo.agent) (d : BoboDynamic.agent) (store : Store)
    (action : Action) (name suffix : string)
    (progress progress' : Q) (clock : nat -> Q) (rand : nat -> nat) :
  contains underscore suffix = false ->
  eq_opt_party (actor_of action) (Bobo.me a) = false ->
  eq_opt_party (actor_of action) (BoboDynamic.me d) = false ->
  (actor_of action = Some (name ++ String underscore suffix)%string ->
   Bobo.other (fst (fst (Bobo.notifyChange a store (ActionDone action)
                           progress progress' clock rand)))
   = Some name
   /\ BoboDynamic.other
        (fst (fst (BoboDynamic.notifyChange d store (ActionDone action)
                     progress progress' clock rand)))
      = Some name)
  /\ (actor_of action = Some suffix ->
      Bobo.other (fst (fst (Bobo.notifyChange a store (ActionDone action)
                              progress progress' clock rand)))
      = Some suffix
      /\ BoboDynamic.other
           (fst (fst (BoboDynamic.notifyChange d store (ActionDone action)
                        progress progress' clock rand)))
         = Some suffix).
Proof.
  intros Hs Ha Hd.
  assert (Hb : forall a' act, Bobo.other (Bobo.opponent_action a' act)
                              = Bobo.other a').
  { intros a' [x b | x b]; [| reflexivity]. unfold Bobo.opponent_action.
    now destruct (3 <=? _)%nat. }
  assert (Hy : forall d' p act,
             BoboDynamic.other (BoboDynamic.opponent_action d' p act)
             = BoboDynamic.other d').
  { intros d' p [x b | x b]; [| reflexivity].
    unfold BoboDynamic.opponent_action. now destruct (3 <=? _)%nat. }
  assert (Hact : forall act : Action,
             match act with Offer actor _ | Accept actor _ => actor end
             = actor_of act) by (now intros [x b | x b]).
  cbn [Bobo.notifyChange BoboDynamic.notifyChange]. rewrite !Hact, Ha, Hd.
  cbn [fst]. rewrite Hb, Hy. cbn [Bobo.other Bobo.set_other
    BoboDynamic.other BoboDynamic.set_other].
  split; intros ->; cbn [str_party].
  - now rewrite rsplit_head_last.
  - now rewrite rsplit_head_none.
Qed.


End Turn.

(** * More on the store *)

Section Records.
Context `{RT : Runtime}.

Lemma line_complete_app (x y : string) :
  line_complete (x ++ (y ++ String LF EmptyString)) = true.
Proof.
  assert (Hy : forall z, line_complete (z ++ String LF EmptyString) = true).
  { induction z as [| c z IH]; [reflexivity |].
    cbn [append line_complete]. destruct z; [reflexivity | exact IH]. }
  induction x as [| c x IH]; cbn [append]; [apply Hy |].
  cbn [line_complete].
  destruct (x ++ (y ++ String LF EmptyString))%string eqn:E;
    [| exact IH].
  destruct x; [destruct y |]; discriminate E.
Qed.

(** A record is a text closed by a line feed. *)
Lemma record_line_closed (name : string) (greedy nice : bool) :
  exists body,
    Bobo.record_line name greedy nice
    = (body ++ String LF EmptyString)%string.
Proof.
  exists (name ++ String comma (str_of_bool greedy
                                ++ String comma (str_of_bool nice)))%string.
  unfold Bobo.record_line. rewrite append_assoc. now destruct greedy, nice.
Qed.

(** The loop stops at a record of the opponent. *)
Lemma load_lines_hit (fresh : Bobo.agent) (name : string)
    (greedy nice : bool) (rest : list string) :
  Bobo.other fresh = Some name ->
  clean_name name = true ->
  Bobo.load_lines fresh (Bobo.record_line name greedy nice :: rest)
  = Bobo.set_flags fresh greedy nice.
Proof.
  intros Hf Hname.
  destruct (record_line_fields name greedy nice Hname) as [_ Hfields].
  cbn [Bobo.load_lines]. rewrite Hfields, Hf.
  cbn [List.length Nat.eqb nth eq_opt_string andb].
  now rewrite String.eqb_refl, !str_of_bool_read.
Qed.

(** X8.  The first record wins.  When two sessions against the same
    opponent have saved their flags, one after the other, into a store
    that held no record for it, an agent that knows the opponent loads the
    flags of the first session, not those of the second. *)
Theorem first_record_wins
    (a1 a2 fresh : Bobo.agent) (name : string) (store : Store) :
  Bobo.other a1 = Some name ->
  Bobo.other a2 = Some name ->
  Bobo.other fresh = Some name ->
  clean_name name = true ->
  Bobo.appendable store = true ->
  Bobo.has_record name store = false ->
  Bobo.load_opponent_data fresh
    (Bobo.save_data a2 (Bobo.save_data a1 store))
  = Bobo.set_flags fresh (Bobo.opponent_is_greedy a1)
                   (Bobo.opponent_is_nice a1).
Proof.
  intros H1 H2 Hf Hname Happ Hrec.
  set (r1 := Bobo.record_line name (Bobo.opponent_is_greedy a1)
                              (Bobo.opponent_is_nice a1)).
  set (r2 := Bobo.record_line name (Bobo.opponent_is_greedy a2)
                              (Bobo.opponent_is_nice a2)).
  destruct (record_line_fields name (Bobo.opponent_is_greedy a1)
              (Bobo.opponent_is_nice a1) Hname) as [Hl1 _].
  destruct (record_line_closed name (Bobo.opponent_is_greedy a1)
              (Bobo.opponent_is_nice a1)) as [body Hbody].
  fold r1 in Hl1, Hbody.
  unfold Bobo.save_data. rewrite H1, H2. fold r1 r2.
  destruct store as [content |]; cbn [Bobo.load_opponent_data].
  - cbn [Bobo.appendable Bobo.has_record] in Happ, Hrec.
    assert (Hc : line_complete (content ++ r1) = true)
      by (rewrite Hbody; apply line_complete_app).
    rewrite (readlines_app _ r2 Hc), (readlines_app _ r1 Happ), Hl1.
    rewrite <- app_assoc, (load_lines_skip name fresh _ _ Hf Hrec).
    cbn [app]. now apply load_lines_hit.
  - assert (Hc : line_complete r1 = true).
    { rewrite Hbody. apply (line_complete_app EmptyString). }
    rewrite (readlines_app _ r2 Hc), Hl1. cbn [app].
    now apply load_lines_hit.
Qed.

(** X9.  No record, no knowledge.  [load_opponent_data] leaves the agent
    as it is when the file is missing, when the opponent has no name yet,
    and when no line of the file splits into three fields of which the
    first is the name of the opponent; lines of any other shape are passed
    over. *)
Theorem load_without_record (a : Bobo.agent) (store : Store) :
  (store = None
   \/ Bobo.other a = None
   \/ exists name, Bobo.other a = Some name
                   /\ Bobo.has_record name store = false) ->
  Bobo.load_opponent_data a store = a.
Proof.
  intros [-> | [Ho | (name & Ho & Hrec)]]; [reflexivity | |];
    destruct store as [content |]; cbn [Bobo.load_opponent_data];
    try reflexivity.
  - now apply load_lines_unknown.
  - cbn [Bobo.has_record] in Hrec.
    rewrite <- (app_nil_r (readlines content)).
    now rewrite (load_lines_skip name a _ _ Ho Hrec).
Qed.

(** X10.  Whatever the store held, after [save_data] has written a record
    it ends with a line feed: the next record starts a line of its own. *)
Theorem save_keeps_store_appendable (a : Bobo.agent) (store : Store) :
  Bobo.other a <> None ->
  Bobo.appendable (Bobo.save_data a store) = true.
Proof.
  intros Ho. unfold Bobo.save_data.
  destruct (Bobo.other a) as [name |]; [| contradiction].
  destruct (record_line_closed name (Bobo.opponent_is_greedy a)
              (Bobo.opponent_is_nice a)) as [body ->].
  destruct store as [content |]; cbn [Bobo.appendable].
  - apply line_complete_app.
  - apply (line_complete_app EmptyString).
Qed.

End Records.

(** * Shape and order of the acceptance policy *)

Section AcceptanceShape.
Context `{RT : Runtime}.



(** Turn the outcome of every test in the context into the order facts it
    stands for, conjunctions and disjunctions kept. *)
Ltac as_orders :=
  repeat match goal with
  | H : _ = true |- _ =>
      progress repeat (rewrite andb_true_iff in H || rewrite Qltb_true in H
                       || rewrite Qleb_true in H)
  | H : _ = false |- _ =>
      progress repeat (rewrite andb_false_iff in H || rewrite Qltb_false in H
                       || rewrite Qleb_false in H)
  end.

(** Follow the policy down its tests, in the context and in the goal. *)
Ltac follow :=
  repeat match goal with
  | H : context [if ?c then _ else _] |- _ => destruct c eqn:?
  | |- context [if ?c then _ else _] => destruct c eqn:?
  end; cbn [orb]; try reflexivity; try discriminate.

(** The same, for the tests of one decision already taken. *)
Ltac follow_in H :=
  repeat match type of H with
  | context [if ?c then _ else _] => destruct c eqn:?
  end; try discriminate H; as_orders.

(** Close a leaf of the policy by the orders collected on the way. *)
Ltac by_orders :=
  as_orders;
  first [ lra
        | apply Qltb_true; lra
        | symmetry; apply Qltb_true; lra
        | symmetry; apply Qltb_false; lra ].


(** X13.  A better offer is never refused where a worse one is taken: if
    the agent accepts a bid, it accepts, at the same moment and in the same
    state, every bid of at least the same own utility for which the
    opponent is predicted the same utility.  In both agents; the
    boolean-flag agent multiplies the two utilities and needs the
    prediction not to be negative. *)
Theorem acceptance_monotone_in_utility
    (a : Bobo.agent) (d : BoboDynamic.agent) (progress : Q) (b1 b2 : Bid) :
  getUtility b1 <= getUtility b2 ->
  (forall m, Bobo.opponent_model a = Some m ->
             get_predicted_utility m b1 == get_predicted_utility m b2
             /\ 0 <= get_predicted_utility m b1) ->
  (forall m, BoboDynamic.opponent_model d = Some m ->
             get_predicted_utility m b1 == get_predicted_utility m b2) ->
  (Bobo.accept_condition a progress (Some b1) = true ->
   Bobo.accept_condition a progress (Some b2) = true)
  /\ (BoboDynamic.accept_condition d progress (Some b1) = true ->
      BoboDynamic.accept_condition d progress (Some b2) = true).
Proof.
  intros Hu Hv Hw.
  unfold Bobo.accept_condition, BoboDynamic.accept_condition. cbv zeta.
  set (u1 := getUtility b1) in *. set (u2 := getUtility b2) in *.
  split.
  - destruct (Bobo.opponent_model a) as [m |].
    + destruct (Hv m eq_refl) as [Hv1 Hv0].
      set (v1 := get_predicted_utility m b1) in *.
      set (v2 := get_predicted_utility m b2) in *.
      assert (Hprod : 0 <= (u2 - u1) * v1)
        by (apply Qmult_le_0_compat; lra).
      assert (Hprod' : u2 * v2 == u2 * v1) by (now rewrite Hv1).
      destruct (Bobo.opponent_is_greedy a), (Bobo.opponent_is_nice a);
        cbn [andb negb]; intros H; follow_in H; follow; by_orders.
    + destruct (Bobo.opponent_is_greedy a); cbn [andb]; intros H;
        follow; by_orders.
  - destruct (BoboDynamic.opponent_model d) as [m |].
    + pose proof (Hw m eq_refl) as Hv1.
      set (v1 := get_predicted_utility m b1) in *.
      set (v2 := get_predicted_utility m b2) in *.
      intros H; follow_in H; follow; by_orders.
    + intros H; follow_in H; follow; by_orders.
Qed.

(** X14.  Time only opens the door: a bid the agent accepts at some
    progress it accepts, in the same state, at every later progress.  In
    both agents. *)
Theorem acceptance_monotone_in_progress
    (a : Bobo.agent) (d : BoboDynamic.agent) (p1 p2 : Q)
    (bid : option Bid) :
  p1 <= p2 ->
  (Bobo.accept_condition a p1 bid = true ->
   Bobo.accept_condition a p2 bid = true)
  /\ (BoboDynamic.accept_condition d p1 bid = true ->
      BoboDynamic.accept_condition d p2 bid = true).
Proof.
  intros Hp. destruct bid as [bid |]; [| now split].
  unfold Bobo.accept_condition, BoboDynamic.accept_condition. cbv zeta.
  set (u := getUtility bid) in *.
  split.
  - destruct (Bobo.opponent_model a) as [m |].
    + set (v := get_predicted_utility m bid) in *.
      destruct (Bobo.opponent_is_greedy a), (Bobo.opponent_is_nice a);
        cbn [andb negb]; intros H; follow_in H; follow; by_orders.
    + destruct (Bobo.opponent_is_greedy a); cbn [andb]; intros H;
        follow; by_orders.
  - destruct (BoboDynamic.opponent_model d) as [m |].
    + set (v := get_predicted_utility m bid) in *.
      intros H; follow_in H; follow; by_orders.
    + intros H; follow_in H; follow; by_orders.
Qed.

End AcceptanceShape.

(** * What the search selects *)

Section Selection.
Context `{RT : Runtime}.

Section Loop.
Variables (floor : Q) (rand : nat -> nat) (score : nat -> Bid -> Q).


End Loop.


(** Products of numbers of the unit interval. *)
Lemma unit_product (x y : Q) :
  0 <= x <= 1 -> 0 <= y <= 1 -> 0 <= x * y <= 1.
Proof.
  intros [Hx0 Hx1] [Hy0 Hy1].
  assert (H1 : 0 <= x * y) by (apply Qmult_le_0_compat; lra).
  assert (H2 : 0 <= x * (1 - y)) by (apply Qmult_le_0_compat; lra).
  split; lra.
Qed.

Lemma unit_product_below (x y : Q) :
  0 <= x < 1 -> 0 <= y <= 1 -> x * y < 1.
Proof.
  intros [Hx0 Hx1] [Hy0 Hy1].
  assert (H2 : 0 <= x * (1 - y)) by (apply Qmult_le_0_compat; lra).
  lra.
Qed.

(** The time pressure goes from 1 at the start to 0 at the deadline and is
    positive before the deadline. *)
Lemma time_pressure_range (progress : Q) :
  0 <= progress <= 1 ->
  0 <= time_pressure progress <= 1
  /\ (progress < 1 -> 0 < time_pressure progress).
Proof.
  intros Hp. unfold time_pressure.
  change (progress ^ 10)
    with (progress * (progress * progress * (progress * progress))
          * (progress * (progress * progress * (progress * progress)))).
  pose proof (unit_product _ _ Hp Hp) as H2.
  pose proof (unit_product _ _ H2 H2) as H4.
  pose proof (unit_product _ _ Hp H4) as H5.
  pose proof (unit_product _ _ H5 H5) as H10.
  split; [lra |]. intros Hlt.
  assert (H5' : 0 <= progress * (progress * progress * (progress * progress))
                < 1).
  { split; [lra |]. apply unit_product_below; lra. }
  pose proof (unit_product_below _ _ H5' H5). lra.
Qed.



End Selection.

(** * Ranges of the score and of the weights *)

Section Ranges.
Context `{RT : Runtime}.

(** X18.  The score of the boolean-flag agent is a utility: with progress,
    own utility and predicted utility in [0, 1], [score_bid] lies in
    [0, 1], whatever the flags and with or without a model. *)
Theorem bobo_score_bounded (a : Bobo.agent) (progress : Q) (bid : Bid) :
  0 <= progress <= 1 ->
  0 <= getUtility bid <= 1 ->
  (forall m, Bobo.opponent_model a = Some m ->
             0 <= get_predicted_utility m bid <= 1) ->
  0 <= Bobo.score_bid a progress bid <= 1.
Proof.
  intros Hp Hu Hv. unfold Bobo.score_bid.
  destruct (time_pressure_range progress Hp) as [Ht _].
  set (t := time_pressure progress) in *.
  set (u := getUtility bid) in *.
  destruct (Bobo.opponent_model a) as [m |].
  - specialize (Hv m eq_refl). cbv zeta.
    set (v := get_predicted_utility m bid) in *.
    destruct (Bobo.opponent_is_greedy a); cbn [negb andb]; [exact Hu |].
    destruct (v <? 0.1 - 0.08 * progress); [lra |].
    assert (Hmix : forall alpha, 0 <= alpha <= 1 ->
                     0 <= alpha * t * u + (1 - alpha * t) * v <= 1).
    { intros alpha Ha.
      pose proof (unit_product _ _ Ha Ht) as Hw.
      pose proof (damped_combination_bounds (alpha * t) u v 0 Hw Hu Hv
                    ltac:(lra)) as H.
      lra. }
    destruct (Bobo.opponent_is_nice a); apply Hmix; lra.
  - cbv zeta.
    assert (Hw : 0 <= 0.95 * t <= 1) by lra.
    apply (unit_product _ _ Hw Hu).
Qed.

(** The clamp keeps the order. *)
Lemma clamp01_monotone (x y : Q) : x <= y -> clamp01 x <= clamp01 y.
Proof.
  intros H. unfold clamp01.
  apply Q.min_le_compat_l. now apply Q.max_le_compat_l.
Qed.

Lemma clamp01_equal (x y : Q) : x == y -> clamp01 x == clamp01 y.
Proof.
  intros H. apply Qle_antisym; apply clamp01_monotone; lra.
Qed.

(** X19.  The greedy weight does not tell a high window from a low one: a
    window averaging [avg] and one averaging [1 - avg] get the same greedy
    weight, so an opponent whose offers are predicted to bring it little
    counts as greedy as one whose offers are predicted to bring it much. *)
Theorem greedy_weight_symmetric (avg progress : Q) :
  BoboDynamic.greedy_of (1 - avg) progress
  == BoboDynamic.greedy_of avg progress.
Proof.
  unfold BoboDynamic.greedy_of. apply clamp01_equal.
  assert (E : Qabs (1 - avg - 0.5) == Qabs (avg - 0.5)).
  { rewrite <- (Qabs_opp (avg - 0.5)). apply Qabs_wd. lra. }
  rewrite E. reflexivity.
Qed.

(** X20.  Both weights of the continuous-weight agent fall as time passes:
    for the same window, a later progress never gives a higher weight. *)
Theorem weights_fall_with_progress (avg p1 p2 : Q) :
  p1 <= p2 ->
  BoboDynamic.greedy_of avg p2 <= BoboDynamic.greedy_of avg p1
  /\ BoboDynamic.nice_of avg p2 <= BoboDynamic.nice_of avg p1.
Proof.
  intros H. unfold BoboDynamic.greedy_of, BoboDynamic.nice_of.
  split; apply clamp01_monotone; lra.
Qed.

(** X21.  From the start of a negotiation and through any actions of the
    opponent, handled at any progress, both weights of the
    continuous-weight agent stay in [0, 1]. *)
Theorem weights_stay_in_range (steps : list (Q * Action)) :
  let d := BoboDynamic.run BoboDynamic.init steps in
  0 <= BoboDynamic.greedy_weight d <= 1
  /\ 0 <= BoboDynamic.nice_weight d <= 1.
Proof.
  cbv zeta. apply dynamic_weights_in_range; cbn; lra.
Qed.

End Ranges.

(** * The further properties on the small runtime

    Each of the properties above that has premises, applied to the agents
    running on the runtime of [Fixture]. *)

Section MoreScenarios.
#[local] Existing Instance Fixture.table_runtime.

(** Orders between given numbers, by evaluation. *)
Ltac by_evaluation :=
  match goal with
  | |- _ /\ _ => split; by_evaluation
  | |- _ <= _ => apply Qle_bool_iff; vm_compute; reflexivity
  | |- _ < _ => apply Qltb_true; vm_compute; reflexivity
  | |- _ == _ => vm_compute; reflexivity
  | |- (_ < _)%nat => vm_compute; lia
  | |- _ = _ => vm_compute; reflexivity
  end.

(** The table of predictions holds utilities. *)
Lemma predicted_table_range (b : nat) :
  0 <= Fixture.predicted_table b <= 1.
Proof.
  do 5 (destruct b as [| b]; [by_evaluation |]).
  destruct b; by_evaluation.
Qed.

(** X2 at work: the settings and a first offer, no end of negotiation. *)
Lemma store_untouched_before_finished_witness :
  forallb (fun data => negb (is_finished data))
          Fixture.next_session_first_offer = true
  /\ snd (Bobo.session 0 (Fixture.still_clock 0) Fixture.stubborn_draws
            Fixture.older_record Fixture.next_session_first_offer)
     = Fixture.older_record
  /\ snd (BoboDynamic.session 0 (Fixture.still_clock 0)
            Fixture.stubborn_draws Fixture.older_record
            Fixture.next_session_first_offer)
     = Fixture.older_record.
Proof.
  assert (H : forallb (fun data => negb (is_finished data))
                      Fixture.next_session_first_offer = true)
    by reflexivity.
  split; [exact H |].
  exact (store_untouched_before_finished (RT := Fixture.table_runtime)
           0 (Fixture.still_clock 0) Fixture.stubborn_draws
           Fixture.older_record Fixture.next_session_first_offer H).
Defined.


(** X5 at work: the same session started without a file and with the
    older record for "X". *)
Lemma bobo_store_never_read_witness :
  forallb (fun data => negb (is_settings data)) Fixture.after_settings
  = true
  /\ fst (Bobo.session 0 (Fixture.still_clock 0) Fixture.stubborn_draws
            None (Settings "me_2"%string :: Fixture.after_settings))
     = fst (Bobo.session 0 (Fixture.still_clock 0) Fixture.stubborn_draws
              Fixture.older_record
              (Settings "me_2"%string :: Fixture.after_settings)).
Proof.
  assert (H : forallb (fun data => negb (is_settings data))
                      Fixture.after_settings = true)
    by reflexivity.
  split; [exact H |].
  exact (bobo_store_never_read (RT := Fixture.table_runtime)
           0 (Fixture.still_clock 0) Fixture.stubborn_draws
           "me_2"%string Fixture.after_settings None Fixture.older_record H).
Defined.

(** X6 at work: the actor "X_1" gives the opponent "X". *)
Lemma opponent_named_after_actor_witness :
  contains underscore "1"%string = false
  /\ eq_opt_party (actor_of Fixture.offer_of_X) (Bobo.me Bobo.init) = false
  /\ eq_opt_party (actor_of Fixture.offer_of_X)
                  (BoboDynamic.me BoboDynamic.init) = false
  /\ Bobo.other
       (fst (fst (Bobo.notifyChange Bobo.init None
                    (ActionDone Fixture.offer_of_X)
                    0 0 (Fixture.still_clock 0) Fixture.stubborn_draws)))
     = Some "X"%string
  /\ BoboDynamic.other
       (fst (fst (BoboDynamic.notifyChange BoboDynamic.init None
                    (ActionDone Fixture.offer_of_X)
                    0 0 (Fixture.still_clock 0) Fixture.stubborn_draws)))
     = Some "X"%string.
Proof.
  assert (H1 : contains underscore "1"%string = false) by reflexivity.
  assert (H2 : eq_opt_party (actor_of Fixture.offer_of_X)
                            (Bobo.me Bobo.init) = false)
    by reflexivity.
  assert (H3 : eq_opt_party (actor_of Fixture.offer_of_X)
                            (BoboDynamic.me BoboDynamic.init) = false)
    by reflexivity.
  split; [exact H1 |]. split; [exact H2 |]. split; [exact H3 |].
  destruct (opponent_named_after_actor (RT := Fixture.table_runtime)
              Bobo.init BoboDynamic.init None Fixture.offer_of_X
              "X"%string "1"%string
              0 0 (Fixture.still_clock 0) Fixture.stubborn_draws H1 H2 H3)
    as [Hname _].
  exact (Hname eq_refl).
Defined.

(** X8 at work: a first session leaves "X" greedy and nice, a second one
    neither; the flags of the first are loaded. *)
Lemma first_record_wins_witness :
  Bobo.other Fixture.knows_X = Some "X"%string
  /\ Bobo.other Fixture.forgets_X = Some "X"%string
  /\ Bobo.other Fixture.meets_X = Some "X"%string
  /\ clean_name "X"%string = true
  /\ Bobo.appendable None = true
  /\ Bobo.has_record "X"%string None = false
  /\ Bobo.load_opponent_data Fixture.meets_X
       (Bobo.save_data Fixture.forgets_X
          (Bobo.save_data Fixture.knows_X None))
     = Bobo.set_flags Fixture.meets_X
         (Bobo.opponent_is_greedy Fixture.knows_X)
         (Bobo.opponent_is_nice Fixture.knows_X).
Proof.
  assert (H1 : Bobo.other Fixture.knows_X = Some "X"%string) by reflexivity.
  assert (H2 : Bobo.other Fixture.forgets_X = Some "X"%string)
    by reflexivity.
  assert (H3 : Bobo.other Fixture.meets_X = Some "X"%string) by reflexivity.
  assert (H4 : clean_name "X"%string = true) by reflexivity.
  assert (H5 : Bobo.appendable None = true) by reflexivity.
  assert (H6 : Bobo.has_record "X"%string None = false) by reflexivity.
  split; [exact H1 |]. split; [exact H2 |]. split; [exact H3 |].
  split; [exact H4 |]. split; [exact H5 |]. split; [exact H6 |].
  exact (first_record_wins (RT := Fixture.table_runtime)
           Fixture.knows_X Fixture.forgets_X Fixture.meets_X "X"%string
           None H1 H2 H3 H4 H5 H6).
Defined.

(** X9 at work: the file holds a record for "Y" only. *)
Lemma load_without_record_witness :
  Bobo.other Fixture.knows_X = Some "X"%string
  /\ Bobo.has_record "X"%string Fixture.record_of_Y = false
  /\ Bobo.load_opponent_data Fixture.knows_X Fixture.record_of_Y
     = Fixture.knows_X.
Proof.
  assert (H1 : Bobo.other Fixture.knows_X = Some "X"%string) by reflexivity.
  assert (H2 : Bobo.has_record "X"%string Fixture.record_of_Y = false)
    by (vm_compute; reflexivity).
  split; [exact H1 |]. split; [exact H2 |].
  exact (load_without_record (RT := Fixture.table_runtime)
           Fixture.knows_X Fixture.record_of_Y
           (or_intror (or_intror (ex_intro _ "X"%string (conj H1 H2))))).
Defined.

(** X10 at work: a file whose last line is not closed. *)
Lemma save_keeps_store_appendable_witness :
  Bobo.other Fixture.knows_X <> None
  /\ Bobo.appendable (Some "X,False"%string) = false
  /\ Bobo.appendable (Bobo.save_data Fixture.knows_X (Some "X,False"%string))
     = true.
Proof.
  assert (H : Bobo.other Fixture.knows_X <> None) by discriminate.
  split; [exact H |]. split; [reflexivity |].
  exact (save_keeps_store_appendable (RT := Fixture.table_runtime)
           Fixture.knows_X (Some "X,False"%string) H).
Defined.



(** X13 at work: bids 1 and 0, of own utility 0.62 and 0.68, both
    predicted at 0.95, judged just before the deadline. *)
Lemma acceptance_monotone_in_utility_witness :
  getUtility 1%nat <= getUtility 0%nat
  /\ (Bobo.accept_condition Fixture.greedy_state 0.995 (Some 1%nat) = true ->
      Bobo.accept_condition Fixture.greedy_state 0.995 (Some 0%nat) = true)
  /\ (BoboDynamic.accept_condition Fixture.dynamic_greedy_state 0.995
        (Some 1%nat) = true ->
      BoboDynamic.accept_condition Fixture.dynamic_greedy_state 0.995
        (Some 0%nat) = true).
Proof.
  assert (H1 : getUtility 1%nat <= getUtility 0%nat) by by_evaluation.
  assert (H2 : forall m,
             Bobo.opponent_model Fixture.greedy_state = Some m ->
             get_predicted_utility m 1%nat == get_predicted_utility m 0%nat
             /\ 0 <= get_predicted_utility m 1%nat)
    by (intros m _; by_evaluation).
  assert (H3 : forall m,
             BoboDynamic.opponent_model Fixture.dynamic_greedy_state = Some m ->
             get_predicted_utility m 1%nat == get_predicted_utility m 0%nat)
    by (intros m _; by_evaluation).
  split; [exact H1 |].
  exact (acceptance_monotone_in_utility (RT := Fixture.table_runtime)
           Fixture.greedy_state Fixture.dynamic_greedy_state 0.995
           1%nat 0%nat H1 H2 H3).
Defined.

(** X14 at work: bid 1 judged at progress 0.3 and at progress 0.995. *)
Lemma acceptance_monotone_in_progress_witness :
  0.3 <= 0.995
  /\ (Bobo.accept_condition Fixture.greedy_state 0.3 (Some 1%nat) = true ->
      Bobo.accept_condition Fixture.greedy_state 0.995 (Some 1%nat) = true)
  /\ (BoboDynamic.accept_condition Fixture.dynamic_greedy_state 0.3
        (Some 1%nat) = true ->
      BoboDynamic.accept_condition Fixture.dynamic_greedy_state 0.995
        (Some 1%nat) = true).
Proof.
  assert (H : 0.3 <= 0.995) by by_evaluation.
  split; [exact H |].
  exact (acceptance_monotone_in_progress (RT := Fixture.table_runtime)
           Fixture.greedy_state Fixture.dynamic_greedy_state 0.3 0.995
           (Some 1%nat) H).
Defined.



(** X18 at work: bid 0 scored halfway by the agent after one offer. *)
Lemma bobo_score_bounded_witness :
  0 <= 0.5 <= 1
  /\ 0 <= getUtility 0%nat <= 1
  /\ 0 <= Bobo.score_bid Fixture.neutral_state 0.5 0%nat <= 1.
Proof.
  assert (H1 : 0 <= 0.5 <= 1) by by_evaluation.
  assert (H2 : 0 <= getUtility 0%nat <= 1) by by_evaluation.
  assert (H3 : forall m,
             Bobo.opponent_model Fixture.neutral_state = Some m ->
             0 <= get_predicted_utility m 0%nat <= 1)
    by (intros m _; apply predicted_table_range).
  split; [exact H1 |]. split; [exact H2 |].
  exact (bobo_score_bounded (RT := Fixture.table_runtime)
           Fixture.neutral_state 0.5 0%nat H1 H2 H3).
Defined.

(** X20 at work: a window averaging 0.95, at the start and at the
    deadline. *)
Lemma weights_fall_with_progress_witness :
  0 <= 1
  /\ BoboDynamic.greedy_of 0.95 1 <= BoboDynamic.greedy_of 0.95 0
  /\ BoboDynamic.nice_of 0.95 1 <= BoboDynamic.nice_of 0.95 0.
Proof.
  assert (H : 0 <= 1) by by_evaluation.
  split; [exact H |].
  exact (weights_fall_with_progress 0.95 0 1 H).
Defined.

End MoreScenarios.
